(** * Functional Linear Modelling (pyActigraphy, [analysis/flm.py])

    A shallow embedding of the class [FLM] and of the two module-level
    bandwidth factors, followed by the properties of the specification that
    were checked against it.

    Conventions of the embedding.
    - A Python [int] is a [Z].  A float (Python [float], [np.float64], the
      entries of an [ndarray]) is an element of an abstract carrier [F] with
      the operations of the class [Float64]; no algebraic law is assumed of
      them, so every general statement holds of IEEE doubles as well as of
      the reals.  Where a statement of the specification needs an identity
      on numbers, that identity is an explicit hypothesis.
    - A one-dimensional [ndarray] and a [pandas.Series] are lists of [F];
      [daily_avg.index.size] is the length of the list.
    - The numerical libraries used as black boxes ([statsmodels] OLS, [scipy]
      [splrep]/[splev], [spm1d.util.smooth], [ndarray.std]) are the fields of
      the class [Solvers].
    - A method of [FLM] is a computation in the monad [M]: it receives the
      object, returns the (possibly mutated) object and either a value or the
      exception that was raised.  The attributes written before an exception
      is raised stay written, as in Python.
    - [print] calls are not represented. *)

From Stdlib Require Import ZArith String Ascii DecimalString Bool Lia List.
Import ListNotations.

Local Open Scope Z_scope.

(** ** Exceptions and results *)

Inductive exn : Type :=
| ValueError (msg : string)
| TypeError (msg : string)
| ZeroDivisionError (msg : string)
| UnboundLocalError (msg : string).

Inductive result (A : Type) : Type :=
| Ok (a : A)
| Raise (e : exn).

Arguments Ok {A} a.
Arguments Raise {A} e.

Definition result_bind {A B : Type} (r : result A) (k : A -> result B) : result B :=
  match r with
  | Ok a => k a
  | Raise e => Raise e
  end.

Definition result_map {A B : Type} (f : A -> B) (r : result A) : result B :=
  match r with
  | Ok a => Ok (f a)
  | Raise e => Raise e
  end.

(** ** Numbers *)

(** Floating-point operations used by the module. *)
Class Float64 (F : Type) : Type := {
  of_int : Z -> F;            (* conversion of an integer, integral literals *)
  np_pi : F;                  (* np.pi *)
  fadd : F -> F -> F;
  fmul : F -> F -> F;
  fdiv : F -> F -> F;
  np_power : F -> F -> F;
  np_cos : F -> F;
  np_sin : F -> F;
  np_sqrt : F -> F;
  np_log : F -> F
}.

(** The spline representation returned by [splrep]: knots, coefficients and
    degree. *)
Record tck (F : Type) : Type := mk_tck {
  tck_t : list F;
  tck_c : list F;
  tck_k : Z
}.

Arguments mk_tck {F} _ _ _.
Arguments tck_t {F} _.
Arguments tck_c {F} _.
Arguments tck_k {F} _.

(** Numerical primitives consumed as black boxes. *)
Class Solvers (F : Type) : Type := {
  (* ndarray.std(ddof=1) *)
  std_ddof1 : list F -> F;
  (* sm.OLS(y, X).fit().params, X given by its columns *)
  OLS_params : list F -> list (list F) -> result (list F);
  (* scipy.interpolate.splrep(t, y, k=k) *)
  splrep : list F -> list F -> Z -> result (tck F);
  (* scipy.interpolate.splev(t, tck) *)
  splev : list F -> tck F -> result (list F);
  (* spm1d.util.smooth(y, fwhm=fwhm) *)
  spm1d_smooth : list F -> F -> result (list F)
}.

(** What the embedding relies on about the black boxes: OLS refuses a design
    matrix whose row count differs from the number of observations and
    returns one parameter per column; [splev], when it returns, returns one
    value per query point; it returns for a representation that [splrep]
    produced and at least one query point, and refuses an empty array of
    query points. *)
Class SolversSpec (F : Type) `{Solvers F} : Prop := {
  OLS_params_shape : forall (y : list F) (X : list (list F)) (b : list F),
    OLS_params y X = Ok b ->
    length b = length X /\ Forall (fun c => length c = length y) X;
  splev_length : forall (t : list F) (s : tck F) (v : list F),
    splev t s = Ok v -> length v = length t;
  splev_defined : forall (x y : list F) (k : Z) (s : tck F) (t : list F),
    splrep x y k = Ok s -> t <> [] -> exists v : list F, splev t s = Ok v;
  splev_empty : forall s : tck F,
    splev [] s = Raise (ValueError "Invalid input data")
}.

(** ** The fragment of NumPy used by the module *)

Section NumPy.

Context {F : Type} `{Float64 F}.

(** [np.arange(a, b)] on integers. *)
Definition np_arange (a b : Z) : list Z :=
  map (fun i => a + Z.of_nat i) (seq 0 (Z.to_nat (b - a))).

(** The points of [np.linspace(start, stop, num, endpoint=False)] for
    integer [start] and [stop]: [start + i * step] for [i = 0..num-1], with
    [step = (stop - start) / num]. *)
Definition linspace_points (start stop num : Z) : list F :=
  let step := fdiv (of_int (stop - start)) (of_int num) in
  map (fun i => fadd (fmul (of_int i) step) (of_int start)) (np_arange 0 num).

(** [np.linspace(start, stop, num, endpoint=False)]; a negative [num] is
    refused. *)
Definition np_linspace (start stop num : Z) : result (list F) :=
  if num <? 0 then
    Raise (ValueError "Number of samples must be non-negative.")
  else
    Ok (linspace_points start stop num).

(** True division of a Python float by a Python int. *)
Definition py_truediv (x : F) (d : Z) : result F :=
  if d =? 0 then Raise (ZeroDivisionError "float division by zero")
  else Ok (fdiv x (of_int d)).

(** [np.stack(arrays, axis=1)] on one-dimensional arrays: the arrays become
    the columns of a matrix, which is kept as the list of its columns. *)
Definition np_stack_axis1 (arrays : list (list F)) : result (list (list F)) :=
  match arrays with
  | [] => Raise (ValueError "need at least one array to stack")
  | a :: rest =>
      if forallb (fun c => Nat.eqb (length c) (length a)) rest then Ok arrays
      else Raise (ValueError "all input arrays must have the same shape")
  end.

(** Number of rows of a matrix given by its columns. *)
Definition n_rows (X : list (list F)) : nat :=
  match X with
  | [] => 0%nat
  | a :: _ => length a
  end.

(** [acc + b * col], entry by entry. *)
Fixpoint axpy (acc col : list F) (b : F) : list F :=
  match acc, col with
  | a :: acc', c :: col' => fadd a (fmul c b) :: axpy acc' col' b
  | _, _ => []
  end.

(** [np.dot(X, beta)] for a matrix [X] (columns) and a vector [beta]:
    entry [i] is the sum over the columns [j] of [X[i, j] * beta[j]],
    accumulated from zero in the order of the columns. *)
Definition np_dot (X : list (list F)) (beta : list F) : result (list F) :=
  if Nat.eqb (length X) (length beta) then
    Ok (fold_left (fun acc cb => axpy acc (fst cb) (snd cb))
                  (combine X beta)
                  (repeat (of_int 0) (n_rows X)))
  else Raise (ValueError "shapes not aligned").

End NumPy.

(** ** Bandwidth factors *)

Section Factors.

Context {F : Type} `{Float64 F}.

(** [np.power(n, -1./(d+4))] *)
Definition _scotts_factor (n d : Z) : F :=
  np_power (of_int n) (fdiv (of_int (-1)) (of_int (d + 4))).

(** [np.power(n*(d+2.0)/4.0, -1./(d+4))] *)
Definition _silverman_factor (n d : Z) : F :=
  np_power (fdiv (fmul (of_int n) (fadd (of_int d) (of_int 2))) (of_int 4))
           (fdiv (of_int (-1)) (of_int (d + 4))).

End Factors.

(** ** Collaborators *)

(** A record of raw measurements, seen through the two members the module
    uses: its display name and its average daily activity for a binarisation
    flag and a resampling frequency. *)
Record Raw (F : Type) : Type := mk_Raw {
  display_name : string;
  average_daily_activity : bool -> string -> list F
}.

Arguments mk_Raw {F} _ _.
Arguments display_name {F} _.
Arguments average_daily_activity {F} _ _ _.

(** A reader: an ordered collection of raw records. *)
Record RawReader (F : Type) : Type := mk_RawReader {
  readers : list (Raw F)
}.

Arguments mk_RawReader {F} _.
Arguments readers {F} _.

(** ** The class [FLM] *)

(** The value of [self.__beta] once set: the OLS parameters (Fourier) or the
    list made of the spline representation (spline). *)
Inductive coefficients (F : Type) : Type :=
| Params (b : list F)
| TckList (s : tck F).

Arguments Params {F} b.
Arguments TckList {F} s.

(** The private attributes of an instance; [None] is Python's [None]. *)
Record FLM (F : Type) : Type := mk_FLM {
  __basis : string;
  __sampling_freq : string;
  __nsamples : option Z;
  __max_order : option Z;
  __basis_functions : option (list (list F));
  __beta : option (coefficients F)
}.

Arguments mk_FLM {F} _ _ _ _ _ _.
Arguments __basis {F} _.
Arguments __sampling_freq {F} _.
Arguments __nsamples {F} _.
Arguments __max_order {F} _.
Arguments __basis_functions {F} _.
Arguments __beta {F} _.

(** A positional argument of a call, as far as the module passes any: an
    integer or a raw record. *)
Inductive pyarg (F : Type) : Type :=
| ArgInt (z : Z)
| ArgRaw (raw : Raw F).

Arguments ArgInt {F} z.
Arguments ArgRaw {F} raw.

(** The [method] argument of [smooth]: a string, a numeric scalar, or an
    object that is neither ([None], a list, a tuple). *)
Inductive method_arg (F : Type) : Type :=
| MStr (s : string)
| MScalar (x : F)
| MOther.

Arguments MStr {F} s.
Arguments MScalar {F} x.
Arguments MOther {F}.

(** *** The monad of methods *)

(** A method body: from the object to the object after the call and the
    value returned or the exception raised. *)
Definition M (F A : Type) : Type := FLM F -> FLM F * result A.

Definition ret {F A : Type} (a : A) : M F A :=
  fun self => (self, Ok a).

Definition raise {F A : Type} (e : exn) : M F A :=
  fun self => (self, Raise e).

Definition bind {F A B : Type} (c : M F A) (k : A -> M F B) : M F B :=
  fun self =>
    match c self with
    | (self', Ok a) => k a self'
    | (self', Raise e) => (self', Raise e)
    end.

(** A computation of a library function, which does not touch the object. *)
Definition lift {F A : Type} (r : result A) : M F A :=
  fun self => (self, r).

(** Reading an attribute. *)
Definition gets {F A : Type} (f : FLM F -> A) : M F A :=
  fun self => (self, Ok (f self)).

(** Writing the object. *)
Definition modify {F : Type} (f : FLM F -> FLM F) : M F unit :=
  fun self => (f self, Ok tt).

Notation "x <- c ;; k" := (bind c (fun x => k))
  (at level 61, c at next level, right associativity).
Notation "c ;;; k" := (bind c (fun _ => k))
  (at level 61, right associativity).

(** Python's [for x in xs: body(x)], stopping at the first exception. *)
Fixpoint for_each {F A : Type} (xs : list A) (body : A -> M F unit) : M F unit :=
  match xs with
  | [] => ret tt
  | x :: xs' => body x ;;; for_each xs' body
  end.

(** Python's list comprehension [[body(x) for x in xs]]. *)
Fixpoint comprehension {F A B : Type} (xs : list A) (body : A -> M F B) : M F (list B) :=
  match xs with
  | [] => ret []
  | x :: xs' => y <- body x ;; ys <- comprehension xs' body ;; ret (y :: ys)
  end.

(** *** Attribute updates *)

Definition set_nsamples {F : Type} (v : option Z) (self : FLM F) : FLM F :=
  mk_FLM (__basis self) (__sampling_freq self) v (__max_order self)
         (__basis_functions self) (__beta self).

Definition set_basis_functions {F : Type} (v : option (list (list F)))
    (self : FLM F) : FLM F :=
  mk_FLM (__basis self) (__sampling_freq self) (__nsamples self)
         (__max_order self) v (__beta self).

Definition set_beta {F : Type} (v : option (coefficients F)) (self : FLM F) : FLM F :=
  mk_FLM (__basis self) (__sampling_freq self) (__nsamples self)
         (__max_order self) (__basis_functions self) v.

(** *** Dictionaries *)

(** A [dict] with string keys, as the list of its items in insertion order. *)
Definition dict (V : Type) : Type := list (string * V).

Fixpoint dict_set {V : Type} (d : dict V) (k : string) (v : V) : dict V :=
  match d with
  | [] => [(k, v)]
  | (k', v') :: d' =>
      if String.eqb k' k then (k', v) :: d' else (k', v') :: dict_set d' k v
  end.

(** [dict(pairs)]: the pairs are inserted from left to right, a later pair
    replacing the value of an earlier one with the same key. *)
Definition dict_of_pairs {V : Type} (pairs : list (string * V)) : dict V :=
  fold_left (fun d kv => dict_set d (fst kv) (snd kv)) pairs [].

(** *** Messages *)

Definition dq : string := String (ascii_of_nat 34) EmptyString.
Definition nl : string := String (ascii_of_nat 10) EmptyString.

Definition bases : list string := ["fourier"; "spline"; "ssa"; "wavelet"]%string.

Definition basis_error_message (basis : string) : string :=
  String.concat ""
    ["`basis` must be "; dq; String.concat (String.concat "" [dq; " or "; dq]) bases;
     dq; ". You passed: "; dq; basis; dq]%string.

(** The message of the [TypeError] for a call of [evaluate] with [given]
    positional arguments, [self] included. *)
Definition too_many_arguments (given : nat) : string :=
  String.concat ""
    ["evaluate() takes from 1 to 2 positional arguments but ";
     NilEmpty.string_of_uint (Nat.to_uint given); " were given"]%string.

Definition fit_first_message : string :=
  String.concat ""
    ["The basis function expansion parameters are empty."; nl;
     "Please run the `self.fit` method first."]%string.

(** *** Methods *)

Section Model.

Context {F : Type} `{Float64 F} `{Solvers F}.

(** [FLM.__init__]: the basis must be one of the four names; nothing is
    built. *)
Definition __init__ (basis sampling_freq : string) (max_order : option Z)
    : result (FLM F) :=
  if existsb (String.eqb basis) bases then
    Ok (mk_FLM basis sampling_freq None max_order None None)
  else
    Raise (ValueError (basis_error_message basis)).

(** The read-only properties. *)
Definition sampling_freq (self : FLM F) : string := __sampling_freq self.
Definition nsamples (self : FLM F) : option Z := __nsamples self.
Definition max_order (self : FLM F) : option Z := __max_order self.
Definition beta (self : FLM F) : option (coefficients F) := __beta self.

(** An operand that must be an integer: [None] makes the arithmetic fail. *)
Definition int_operand (v : option Z) (msg : string) : M F Z :=
  match v with
  | Some z => ret z
  | None => raise (TypeError msg)
  end.

(** The harmonic of index [n]: [cos(n*omega*t)] and [sin(n*omega*t)]. *)
Definition harmonic (omega : F) (t : list F) (n : Z) : list (list F) :=
  [ map (fun ti => np_cos (fmul (fmul (of_int n) omega) ti)) t;
    map (fun ti => np_sin (fmul (fmul (of_int n) omega) ti)) t ].

(** [FLM.__create_basis_functions(T)] *)
Definition __create_basis_functions (T : option Z) : M F unit :=
  basis <- gets __basis ;;
  if (basis =? "fourier")%string then
    T' <- int_operand T "unsupported operand type(s) for /: 'float' and 'NoneType'" ;;
    omega <- lift (py_truediv (fmul (of_int 2) np_pi) T') ;;
    t <- lift (np_linspace 0 T' T') ;;
    let dc := map (fun ti => np_cos (fmul (of_int 0) ti)) t in
    k <- gets max_order ;;
    k' <- int_operand k "unsupported operand type(s) for +: 'NoneType' and 'int'" ;;
    let phi := dc :: flat_map (harmonic omega t) (np_arange 1 (k' + 1)) in
    modify (set_basis_functions (Some phi))
  else
    modify (set_basis_functions (Some [])).

(** The property [FLM.basis_functions]: built on first access from the
    current [nsamples], then returned from the attribute. *)
Definition basis_functions : M F (option (list (list F))) :=
  cached <- gets __basis_functions ;;
  match cached with
  | None => T <- gets nsamples ;; __create_basis_functions T ;;; gets __basis_functions
  | Some _ => gets __basis_functions
  end.

(** [np.stack(self.basis_functions, axis=1)] *)
Definition stack_basis (phi : option (list (list F))) : result (list (list F)) :=
  match phi with
  | Some arrays => np_stack_axis1 arrays
  | None => Raise (TypeError "iteration over a 0-d array")
  end.

(** [FLM.fit(raw, binarize, verbose)] *)
Definition fit (raw : Raw F) (binarize verbose : bool) : M F unit :=
  freq <- gets sampling_freq ;;
  let daily_avg := average_daily_activity raw binarize freq in
  modify (set_nsamples (Some (Z.of_nat (length daily_avg)))) ;;;
  basis <- gets __basis ;;
  if (basis =? "fourier")%string then
    phi <- basis_functions ;;
    X <- lift (stack_basis phi) ;;
    let y := daily_avg in
    params <- lift (OLS_params y X) ;;
    modify (set_beta (Some (Params params)))
  else if (basis =? "spline")%string then
    n <- gets nsamples ;;
    T <- int_operand n "'NoneType' object cannot be interpreted as an integer" ;;
    t <- lift (np_linspace 0 T T) ;;
    k <- gets (fun self => match max_order self with None => 3 | Some k => k end) ;;
    s <- lift (splrep t daily_avg k) ;;
    modify (set_beta (Some (TckList s)))
  else
    ret tt.

(** [np.dot(X, self.beta)]; the parameters are an array after a Fourier fit. *)
Definition dot_beta (X : list (list F)) (b : coefficients F) : result (list F) :=
  match b with
  | Params params => np_dot X params
  | TckList _ => Raise (ValueError "setting an array element with a sequence")
  end.

(** [splev(t, tuple(self.beta))]; the list is a spline representation after
    a spline fit. *)
Definition splev_beta (t : list F) (b : coefficients F) : result (list F) :=
  match b with
  | TckList s => splev t s
  | Params _ => Raise (ValueError "not a spline representation")
  end.

(** [r*T] for the argument [r] of [evaluate]. *)
Definition times_int (r : pyarg F) (T : Z) : result Z :=
  match r with
  | ArgInt z => Ok (z * T)
  | ArgRaw _ => Raise (TypeError "unsupported operand type(s) for *")
  end.

(** [FLM.evaluate(r)]; the result is [None] when the method falls through
    both branches.  The [dtype=np.float] of the spline branch is the float
    type of the NumPy versions that define that alias. *)
Definition evaluate (r : pyarg F) : M F (option (list F)) :=
  b <- gets beta ;;
  match b with
  | None => raise (ValueError fit_first_message)
  | Some coef =>
      basis <- gets __basis ;;
      if (basis =? "fourier")%string then
        phi <- basis_functions ;;
        X <- lift (stack_basis phi) ;;
        y_est <- lift (dot_beta X coef) ;;
        ret (Some y_est)
      else if (basis =? "spline")%string then
        n <- gets nsamples ;;
        T <- int_operand n "unsupported operand type(s) for *: 'int' and 'NoneType'" ;;
        num <- lift (times_int r T) ;;
        t <- lift (np_linspace 0 T num) ;;
        y_est <- lift (splev_beta t coef) ;;
        ret (Some y_est)
      else
        ret None
  end.

(** A call of [self.evaluate] with the positional arguments [args]:
    [evaluate] has one parameter besides [self], with default 10. *)
Definition call_evaluate (args : list (pyarg F)) : M F (option (list F)) :=
  match args with
  | [] => evaluate (ArgInt 10)
  | [r] => evaluate r
  | _ :: _ :: _ => raise (TypeError (too_many_arguments (S (length args))))
  end.

(** [FLM.fit_reader(reader, binarize, verbose_fit)], branch [n_jobs == 1];
    the other branch hands the same calls to joblib and is not embedded. *)
Definition fit_reader (reader : RawReader F) (binarize verbose_fit : bool) : M F unit :=
  for_each (readers reader) (fun raw => fit raw binarize verbose_fit).

(** [FLM.evaluate_reader(reader, r)], branch [n_jobs == 1]; the other branch
    hands the same calls to joblib and is not embedded. *)
Definition evaluate_reader (reader : RawReader F) (r : pyarg F)
    : M F (dict (option (list F))) :=
  pairs <- comprehension (readers reader)
             (fun raw =>
                y_est <- call_evaluate [ArgRaw raw; r] ;;
                ret (display_name raw, y_est)) ;;
  ret (dict_of_pairs pairs).

(** The local variable [fwhm] of [smooth] after the chain of tests on
    [method]; [None] when no branch has bound it. *)
Definition bind_fwhm (method : method_arg F) (size : Z) (sd2fwhm data_std : F)
    : option F :=
  match method with
  | MStr s =>
      if (s =? "scotts")%string then
        Some (fmul (fmul (_scotts_factor size 1) sd2fwhm) data_std)
      else if (s =? "silverman")%string then
        Some (fmul (fmul (_silverman_factor size 1) sd2fwhm) data_std)
      else None
  | MScalar x => Some x
  | MOther => None
  end.

(** [FLM.smooth(raw, binarize, method)] *)
Definition smooth (raw : Raw F) (binarize : bool) (method : method_arg F)
    : M F (list F) :=
  freq <- gets sampling_freq ;;
  let daily_avg := average_daily_activity raw binarize freq in
  let sd2fwhm := np_sqrt (fmul (of_int 8) (np_log (of_int 2))) in
  let data_std := std_ddof1 daily_avg in
  match bind_fwhm method (Z.of_nat (length daily_avg)) sd2fwhm data_std with
  | Some fwhm => lift (spm1d_smooth daily_avg fwhm)
  | None =>
      raise (UnboundLocalError "local variable 'fwhm' referenced before assignment")
  end.

End Model.

(** ** Lifecycle of an instance, and the vocabulary of the statements *)

Section Lifecycle.

Context {F : Type} `{Float64 F} `{Solvers F}.

(** The operations a caller can apply to an instance. *)
Inductive call : Type :=
| CallFit (raw : Raw F) (binarize verbose : bool)
| CallEvaluate (r : pyarg F)
| CallSmooth (raw : Raw F) (binarize : bool) (method : method_arg F)
| CallBasisFunctions
| CallFitReader (reader : RawReader F) (binarize verbose_fit : bool)
| CallEvaluateReader (reader : RawReader F) (r : pyarg F).

Definition is_ok {A : Type} (r : result A) : bool :=
  match r with
  | Ok _ => true
  | Raise _ => false
  end.

(** The loop of [fit_reader], recording whether one of its calls to [fit]
    returned normally. *)
Fixpoint fit_each (raws : list (Raw F)) (binarize verbose : bool) (self : FLM F)
    : FLM F * bool :=
  match raws with
  | [] => (self, false)
  | raw :: rest =>
      match fit raw binarize verbose self with
      | (self', Ok _) => (fst (fit_each rest binarize verbose self'), true)
      | (self', Raise _) => (self', false)
      end
  end.

(** One call: the instance afterwards, and whether a call to [fit] returned
    normally in its course. *)
Definition run_call (c : call) (self : FLM F) : FLM F * bool :=
  match c with
  | CallFit raw binarize verbose =>
      let out := fit raw binarize verbose self in (fst out, is_ok (snd out))
  | CallEvaluate r => (fst (evaluate r self), false)
  | CallSmooth raw binarize method => (fst (smooth raw binarize method self), false)
  | CallBasisFunctions => (fst (basis_functions self), false)
  | CallFitReader reader binarize verbose_fit =>
      fit_each (readers reader) binarize verbose_fit self
  | CallEvaluateReader reader r => (fst (evaluate_reader reader r self), false)
  end.

(** A sequence of calls, from an instance on which [fitted] tells whether
    a call to [fit] has returned normally so far. *)
Fixpoint run (history : list call) (self : FLM F) (fitted : bool) : FLM F * bool :=
  match history with
  | [] => (self, fitted)
  | c :: rest =>
      let out := run_call c self in
      run rest (fst out) (fitted || snd out)
  end.

(** The basis kinds with a branch in [fit]. *)
Definition supported (self : FLM F) : Prop :=
  __basis self = "fourier"%string \/ __basis self = "spline"%string.

(** Entry [i] of vector [j] of a list of vectors. *)
Definition entry (phi : list (list F)) (j i : nat) : option F :=
  match nth_error phi j with
  | Some v => nth_error v i
  | None => None
  end.

(** The sampling point of index [i] of a cycle of [T] points, as
    [np.linspace(0, T, T, endpoint=False)] computes it. *)
Definition sample_point (T i : Z) : F :=
  fadd (fmul (of_int i) (fdiv (of_int T) (of_int T))) (of_int 0).

(** The angular frequency of the harmonic [n] of a cycle of [T] points,
    [n * (2*pi / T)]. *)
Definition angular_frequency (T n : Z) : F :=
  fmul (of_int n) (fdiv (fmul (of_int 2) np_pi) (of_int T)).

(** The list [phi] that the Fourier branch of [__create_basis_functions]
    builds for a cycle of [T] points and [max_order = k]. *)
Definition fourier_phi (T k : Z) : list (list F) :=
  map (fun ti => np_cos (fmul (of_int 0) ti)) (map (sample_point T) (np_arange 0 T))
  :: flat_map (harmonic (fdiv (fmul (of_int 2) np_pi) (of_int T))
                        (map (sample_point T) (np_arange 0 T)))
              (np_arange 1 (k + 1)).

End Lifecycle.

(** ** A computable interpretation

    Numbers are expressions: integer literals are computed with exactly
    (sums, products, exact quotients; a product by the literal zero is zero),
    every other operation and every black box is kept as a symbol.  The
    black boxes check the shapes the libraries check.  The interpretation
    runs the methods on concrete inputs. *)

Module Symbolic.

Unset Elimination Schemes.

Inductive expr : Type :=
| Lit (z : Z)
| Pi
| Add (a b : expr)
| Mul (a b : expr)
| Div (a b : expr)
| Pow (a b : expr)
| Cos (a : expr)
| Sin (a : expr)
| Sqrt (a : expr)
| Log (a : expr)
| Std (ys : list expr)
| OlsParam (y : list expr) (X : list (list expr)) (j : nat)
| Knot (x y : list expr) (k : Z) (i : nat)
| Coef (x y : list expr) (k : Z) (i : nat)
| Splev (x : expr) (t c : list expr) (k : Z)
| Smooth (ys : list expr) (fwhm : expr) (i : nat).

Set Elimination Schemes.

Definition add (a b : expr) : expr :=
  match a, b with
  | Lit x, Lit y => Lit (x + y)
  | _, _ => Add a b
  end.

Definition mul (a b : expr) : expr :=
  match a, b with
  | Lit x, Lit y => Lit (x * y)
  | Lit 0, _ => Lit 0
  | _, _ => Mul a b
  end.

Definition div (a b : expr) : expr :=
  match a, b with
  | Lit x, Lit y =>
      if negb (y =? 0) && (x mod y =? 0) then Lit (x / y) else Div a b
  | _, _ => Div a b
  end.

#[export] Instance expr_Float64 : Float64 expr := {
  of_int := Lit;
  np_pi := Pi;
  fadd := add;
  fmul := mul;
  fdiv := div;
  np_power := Pow;
  np_cos := Cos;
  np_sin := Sin;
  np_sqrt := Sqrt;
  np_log := Log
}.

Definition ols (y : list expr) (X : list (list expr)) : result (list expr) :=
  if forallb (fun c => Nat.eqb (length c) (length y)) X then
    Ok (map (OlsParam y X) (seq 0 (length X)))
  else
    Raise (ValueError "endog and exog matrices are different sizes").

Definition spl_rep (x y : list expr) (k : Z) : result (tck expr) :=
  if negb ((1 <=? k) && (k <=? 5)) then
    Raise (TypeError "1 <= k <= 5 must hold")
  else if negb (Nat.eqb (length x) (length y)) then
    Raise (TypeError "Lengths of the first three arguments (x,y,w) must be equal")
  else if Z.of_nat (length x) <=? k then
    Raise (TypeError "m > k must hold")
  else
    let n := (length x + Z.to_nat k + 1)%nat in
    Ok (mk_tck (map (Knot x y k) (seq 0 n)) (map (Coef x y k) (seq 0 n)) k).

(** [splev] refuses an empty array of query points. *)
Definition spl_ev (t : list expr) (s : tck expr) : result (list expr) :=
  match t with
  | [] => Raise (ValueError "Invalid input data")
  | _ :: _ => Ok (map (fun ti => Splev ti (tck_t s) (tck_c s) (tck_k s)) t)
  end.

(** Whether an expression is not a number: the standard deviation with
    [ddof=1] of fewer than two samples, and what is computed from it. *)
Fixpoint is_nan (e : expr) : bool :=
  match e with
  | Std ys => (length ys <? 2)%nat
  | Add a b | Mul a b | Div a b | Pow a b => is_nan a || is_nan b
  | Cos a | Sin a | Sqrt a | Log a => is_nan a
  | _ => false
  end.

(** The kernel smoother divides by the bandwidth, and converts it to a
    number of points: it fails on a zero and on a NaN bandwidth. *)
Definition smooth1d (ys : list expr) (fwhm : expr) : result (list expr) :=
  match fwhm with
  | Lit 0 => Raise (ZeroDivisionError "float division by zero")
  | _ =>
      if is_nan fwhm then Raise (ValueError "cannot convert float NaN to integer")
      else Ok (map (Smooth ys fwhm) (seq 0 (length ys)))
  end.

#[export] Instance expr_Solvers : Solvers expr := {
  std_ddof1 := Std;
  OLS_params := ols;
  splrep := spl_rep;
  splev := spl_ev;
  spm1d_smooth := smooth1d
}.

(** Sample series. *)
Definition series (zs : list Z) : bool -> string -> list expr :=
  fun _ _ => map Lit zs.

Definition raw2 : Raw expr := mk_Raw "rec2" (series [5; 6]).
Definition raw4 : Raw expr := mk_Raw "rec4" (series [3; 1; 4; 1]).
Definition raw6 : Raw expr := mk_Raw "rec6" (series [2; 7; 1; 8; 2; 8]).
Definition raw8 : Raw expr := mk_Raw "rec8" (series [1; 2; 3; 4; 5; 6; 7; 8]).

(** A freshly constructed model. *)
Definition new (basis : string) (k : option Z) : FLM expr :=
  mk_FLM basis "30min" None k None None.

(** The models after one fit. *)
Definition fitted_fourier : FLM expr :=
  fst (fit raw4 false false (new "fourier" (Some 1))).

Definition fitted_spline : FLM expr :=
  fst (fit raw8 false false (new "spline" None)).

(** A second Fourier model, in another state, with the same [max_order]. *)
Definition other_fourier : FLM expr :=
  mk_FLM "fourier" "1min" (Some 7) (Some 1) (Some []) None.

(** A sequence of calls on a spline model of degree 3; the fits on two
    samples fail in [splrep], the fit on eight succeeds. *)
Definition history8 : list (@call expr) :=
  [CallEvaluate (ArgInt 2); CallFit raw2 false false; CallFit raw8 false false;
   CallSmooth raw4 false (MStr "scotts"); CallFit raw2 false false].

End Symbolic.

(** ** The setter of the basis functions, and states that [evaluate] can serve *)

Section Setters.

Context {F : Type} `{Float64 F} `{Solvers F}.

(** The setter of the property [basis_functions]. *)
Definition basis_functions_setter (value : option (list (list F))) : M F unit :=
  modify (set_basis_functions value).

(** What the stored coefficients come with after a fit: for a Fourier model
    parameters, one per vector of a cached list that stacks; for a spline
    model a spline representation that [splrep] returned and a number of
    samples. *)
Definition fit_consistent (self : FLM F) : Prop :=
  forall c : coefficients F,
    __beta self = Some c ->
    (__basis self = "fourier"%string ->
     exists (X : list (list F)) (params : list F),
       c = Params params /\ __basis_functions self = Some X
       /\ np_stack_axis1 X = Ok X /\ length params = length X)
    /\ (__basis self = "spline"%string ->
        exists (s : tck F) (n : Z),
          c = TckList s /\ __nsamples self = Some n /\ 0 <= n
          /\ exists (x y : list F) (k : Z), splrep x y k = Ok s).

End Setters.

(** ** Further sample inputs *)

Module Samples.

Import Symbolic.

(** A record whose daily average is empty. *)
Definition raw0 : Raw expr := mk_Raw "rec0" (series []).

(** The spline representation stored by the fit on eight samples. *)
Definition spline8 : tck expr :=
  match beta fitted_spline with
  | Some (TckList s) => s
  | _ => mk_tck [] [] 0
  end.

(** Calls on the fitted Fourier model: a refit on six samples, which fails,
    an evaluation and an access to the basis functions. *)
Definition history_stale : list (@call expr) :=
  [CallFit raw6 false false; CallEvaluate (ArgInt 10); CallBasisFunctions;
   CallFitReader (mk_RawReader [raw4; raw6]) false false].

(** Calls on a new Fourier model: a fit that succeeds, then one that fails. *)
Definition history_fourier : list (@call expr) :=
  [CallFit raw4 false false; CallSmooth raw6 false (MScalar (Lit 2));
   CallFit raw6 false false].

End Samples.


(** * Properties *)

(** ** Lists and ranges *)

Lemma length_np_arange (a b : Z) :
  length (np_arange a b) = Z.to_nat (b - a).
Proof.
  unfold np_arange. now rewrite length_map, length_seq.
Qed.

Lemma nth_error_np_arange (a b : Z) (j : nat) :
  (j < Z.to_nat (b - a))%nat ->
  nth_error (np_arange a b) j = Some (a + Z.of_nat j).
Proof.
  intros Hj. unfold np_arange.
  rewrite nth_error_map, nth_error_seq.
  apply Nat.ltb_lt in Hj. now rewrite Hj.
Qed.

Section Pairs.

Context {A B : Type} (g h : A -> B).

Lemma length_flat_map_pair (l : list A) :
  length (flat_map (fun x => [g x; h x]) l) = (2 * length l)%nat.
Proof.
  induction l as [| x l IH]; cbn [flat_map length app]; [reflexivity | lia].
Qed.

Lemma nth_error_flat_map_pair (l : list A) (j : nat) :
  nth_error (flat_map (fun x => [g x; h x]) l) (2 * j) = option_map g (nth_error l j)
  /\ nth_error (flat_map (fun x => [g x; h x]) l) (2 * j + 1) = option_map h (nth_error l j).
Proof.
  revert j. induction l as [| x l IH]; intros j.
  - destruct j; cbn; split; reflexivity.
  - destruct j as [| j].
    + split; reflexivity.
    + replace (2 * S j)%nat with (S (S (2 * j))) by lia.
      replace (S (S (2 * j)) + 1)%nat with (S (S (2 * j + 1))) by lia.
      cbn [flat_map app nth_error]. apply IH.
Qed.

Lemma Forall_flat_map_pair (P : B -> Prop) (l : list A) :
  (forall x, P (g x)) -> (forall x, P (h x)) ->
  Forall P (flat_map (fun x => [g x; h x]) l).
Proof.
  intros Hg Hh. induction l as [| x l IH]; cbn [flat_map app]; auto.
Qed.

End Pairs.

Lemma map_constant {A B : Type} (f : A -> B) (c : B) (l : list A) :
  Forall (fun x => f x = c) l -> map f l = repeat c (length l).
Proof.
  induction 1 as [| x l Hx _ IH]; cbn; [reflexivity | now rewrite Hx, IH].
Qed.

(** Unfolds the monadic plumbing of a method body. *)
Ltac run_method :=
  unfold bind, gets, modify, ret, raise, lift, int_operand; cbn.

(** ** Construction of the Fourier basis *)

Section Basis.
Context {F : Type} `{Float64 F} `{Solvers F}.


Lemma create_fourier (self : FLM F) (T k : Z) :
  __basis self = "fourier"%string -> __max_order self = Some k -> 0 < T ->
  __create_basis_functions (Some T) self
  = (set_basis_functions (Some (fourier_phi T k)) self, Ok tt).
Proof.
  intros Hb Hk HT.
  unfold __create_basis_functions, py_truediv, np_linspace, linspace_points,
    max_order, fourier_phi, sample_point.
  run_method. rewrite Hb. cbn.
  destruct (T =? 0) eqn:E; [apply Z.eqb_eq in E; lia |].
  destruct (T <? 0) eqn:E'; [apply Z.ltb_lt in E'; lia |].
  cbn. rewrite Hk, Z.sub_0_r. reflexivity.
Qed.

Lemma nth_error_harmonics (omega : F) (t : list F) (l : list Z) (j : nat) :
  nth_error (flat_map (harmonic omega t) l) (2 * j)
    = option_map (fun n => map (fun ti => np_cos (fmul (fmul (of_int n) omega) ti)) t)
                 (nth_error l j)
  /\ nth_error (flat_map (harmonic omega t) l) (2 * j + 1)
    = option_map (fun n => map (fun ti => np_sin (fmul (fmul (of_int n) omega) ti)) t)
                 (nth_error l j).
Proof.
  exact (nth_error_flat_map_pair
           (fun n => map (fun ti => np_cos (fmul (fmul (of_int n) omega) ti)) t)
           (fun n => map (fun ti => np_sin (fmul (fmul (of_int n) omega) ti)) t) l j).
Qed.

Lemma fourier_phi_entries (T k n i : Z) :
  1 <= n <= k -> 0 <= i < T ->
  entry (fourier_phi T k) (Z.to_nat (2 * n - 1)) (Z.to_nat i)
    = Some (np_cos (fmul (angular_frequency T n) (sample_point T i)))
  /\ entry (fourier_phi T k) (Z.to_nat (2 * n)) (Z.to_nat i)
    = Some (np_sin (fmul (angular_frequency T n) (sample_point T i))).
Proof.
  intros Hn Hi.
  set (j := Z.to_nat (n - 1)).
  replace (Z.to_nat (2 * n - 1)) with (S (2 * j)) by lia.
  replace (Z.to_nat (2 * n)) with (S (2 * j + 1)) by lia.
  unfold entry, fourier_phi. cbn [nth_error].
  match goal with
  | |- context [flat_map (harmonic ?omega ?t) ?l] =>
      destruct (nth_error_harmonics omega t l j) as [E1 E2]
  end.
  rewrite E1, E2.
  rewrite nth_error_np_arange by lia. cbn [option_map].
  rewrite !nth_error_map, nth_error_np_arange by lia. cbn [option_map].
  replace (1 + Z.of_nat j) with n by lia.
  replace (0 + Z.of_nat (Z.to_nat i)) with i by lia.
  unfold angular_frequency. split; reflexivity.
Qed.

Lemma fourier_phi_length (T k : Z) :
  0 <= k -> length (fourier_phi T k) = Z.to_nat (2 * k + 1).
Proof.
  intros Hk. unfold fourier_phi. cbn [length].
  unfold harmonic.
  rewrite (length_flat_map_pair
             (fun n => map (fun ti => np_cos (fmul (fmul (of_int n) _) ti)) _)
             (fun n => map (fun ti => np_sin (fmul (fmul (of_int n) _) ti)) _)).
  rewrite length_np_arange. lia.
Qed.

Lemma fourier_phi_rows (T k : Z) :
  Forall (fun v => length v = Z.to_nat T) (fourier_phi T k).
Proof.
  unfold fourier_phi. constructor.
  - now rewrite !length_map, length_np_arange, Z.sub_0_r.
  - unfold harmonic.
    apply (Forall_flat_map_pair
             (fun n => map (fun ti => np_cos (fmul (fmul (of_int n) _) ti)) _)
             (fun n => map (fun ti => np_sin (fmul (fmul (of_int n) _) ti)) _));
      intros n; now rewrite !length_map, length_np_arange, Z.sub_0_r.
Qed.

Lemma fourier_phi_dc (T k : Z) :
  Forall (fun i => fmul (of_int 0) (sample_point T i) = of_int 0) (np_arange 0 T) ->
  nth_error (fourier_phi T k) 0 = Some (repeat (np_cos (of_int 0)) (Z.to_nat T)).
Proof.
  intros Hz. unfold fourier_phi. cbn [nth_error]. f_equal.
  rewrite map_map.
  rewrite (map_constant _ (np_cos (of_int 0))).
  - now rewrite length_np_arange, Z.sub_0_r.
  - eapply Forall_impl; [| exact Hz]. cbn. intros i Hi. now rewrite Hi.
Qed.

(** C3. For a Fourier model with [max_order = k] (an integer [k >= 0]) and a
    cycle of [T >= 1] points, [__create_basis_functions] stores exactly
    [2k+1] vectors of length [T]: first the vector [cos(0*t)], which is the
    constant [cos 0] as soon as zero times a sampling point is zero; then,
    for [n = 1..k], at positions [2n-1] and [2n], the vectors
    [cos(n*omega*t)] and [sin(n*omega*t)] with [omega = 2*pi/T] and [t] the
    [T] points of [np.linspace(0, T, T, endpoint=False)].  The list depends
    on [T] and [k] only (a second Fourier model with the same [max_order]
    gets the same list), and the property [basis_functions] returns it on
    first access when [nsamples] is [T]. *)
Theorem fourier_basis_construction (self other : FLM F) (T k : Z) :
  __basis self = "fourier"%string -> __max_order self = Some k ->
  __basis other = "fourier"%string -> __max_order other = Some k ->
  0 < T -> 0 <= k ->
  Forall (fun i => fmul (of_int 0) (sample_point T i) = of_int 0) (np_arange 0 T) ->
  exists phi : list (list F),
    __create_basis_functions (Some T) self
      = (set_basis_functions (Some phi) self, Ok tt)
    /\ __create_basis_functions (Some T) other
      = (set_basis_functions (Some phi) other, Ok tt)
    /\ (__basis_functions self = None -> __nsamples self = Some T ->
        basis_functions self = (set_basis_functions (Some phi) self, Ok (Some phi)))
    /\ length phi = Z.to_nat (2 * k + 1)
    /\ Forall (fun v => length v = Z.to_nat T) phi
    /\ nth_error phi 0 = Some (repeat (np_cos (of_int 0)) (Z.to_nat T))
    /\ forall n i : Z, 1 <= n <= k -> 0 <= i < T ->
         entry phi (Z.to_nat (2 * n - 1)) (Z.to_nat i)
           = Some (np_cos (fmul (angular_frequency T n) (sample_point T i)))
         /\ entry phi (Z.to_nat (2 * n)) (Z.to_nat i)
           = Some (np_sin (fmul (angular_frequency T n) (sample_point T i))).
Proof.
  intros Hb Hk Hb' Hk' HT Hk0 Hz.
  exists (fourier_phi T k).
  repeat split.
  - now apply create_fourier.
  - now apply create_fourier.
  - intros Hc Hn. unfold basis_functions, nsamples, bind, gets.
    cbv beta iota. rewrite Hc. cbv beta iota. rewrite Hn.
    now rewrite (create_fourier self T k Hb Hk HT).
  - now apply fourier_phi_length.
  - apply fourier_phi_rows.
  - now apply fourier_phi_dc.
  - now apply fourier_phi_entries.
  - now apply fourier_phi_entries.
Qed.

End Basis.

(** Case analysis on the innermost scrutinee of the goal. *)
Ltac break_match :=
  match goal with
  | |- context [match ?x with _ => _ end] =>
      lazymatch x with
      | context [match _ with _ => _ end] => fail
      | _ => destruct x eqn:?; cbn
      end
  end.


(** ** The methods, unfolded *)

Section Methods.
Context {F : Type} `{Float64 F} `{Solvers F}.

Lemma create_frame (T : option Z) (self : FLM F) :
  __basis (fst (__create_basis_functions T self)) = __basis self
  /\ __sampling_freq (fst (__create_basis_functions T self)) = __sampling_freq self
  /\ __max_order (fst (__create_basis_functions T self)) = __max_order self
  /\ __nsamples (fst (__create_basis_functions T self)) = __nsamples self
  /\ __beta (fst (__create_basis_functions T self)) = __beta self.
Proof.
  unfold __create_basis_functions, py_truediv, np_linspace, linspace_points, max_order.
  run_method.
  repeat break_match; auto.
Qed.

Lemma basis_functions_frame (self : FLM F) :
  __basis (fst (basis_functions self)) = __basis self
  /\ __sampling_freq (fst (basis_functions self)) = __sampling_freq self
  /\ __max_order (fst (basis_functions self)) = __max_order self
  /\ __nsamples (fst (basis_functions self)) = __nsamples self
  /\ __beta (fst (basis_functions self)) = __beta self.
Proof.
  unfold basis_functions, bind, gets. cbv beta iota.
  destruct (__basis_functions self) eqn:E; cbn [fst]; auto.
  pose proof (create_frame (nsamples self) self) as Hc.
  destruct (__create_basis_functions (nsamples self) self) as [s' [[] | e]]; exact Hc.
Qed.


Lemma fit_unfold (raw : Raw F) (binarize verbose : bool) (self : FLM F) :
  fit raw binarize verbose self =
  let daily_avg := average_daily_activity raw binarize (sampling_freq self) in
  let n := Z.of_nat (length daily_avg) in
  let self1 := set_nsamples (Some n) self in
  if (__basis self =? "fourier")%string then
    match basis_functions self1 with
    | (self2, Ok phi) =>
        match stack_basis phi with
        | Ok X =>
            match OLS_params daily_avg X with
            | Ok params => (set_beta (Some (Params params)) self2, Ok tt)
            | Raise e => (self2, Raise e)
            end
        | Raise e => (self2, Raise e)
        end
    | (self2, Raise e) => (self2, Raise e)
    end
  else if (__basis self =? "spline")%string then
    match np_linspace 0 n n with
    | Ok t =>
        match splrep t daily_avg
                (match __max_order self with None => 3 | Some k => k end) with
        | Ok s => (set_beta (Some (TckList s)) self1, Ok tt)
        | Raise e => (self1, Raise e)
        end
    | Raise e => (self1, Raise e)
    end
  else (self1, Ok tt).
Proof.
  unfold fit, bind, gets, modify, lift, ret, int_operand, nsamples, max_order.
  cbv beta iota zeta. cbn [__basis set_nsamples __nsamples __max_order].
  destruct (__basis self =? "fourier")%string.
  - destruct (basis_functions _) as [self2 [phi | e]]; [| reflexivity].
    destruct (stack_basis phi) as [X | e]; [| reflexivity].
    destruct (OLS_params _ X); reflexivity.
  - destruct (__basis self =? "spline")%string; [| reflexivity].
    cbn. destruct (np_linspace _ _ _) as [t | e]; [| reflexivity].
    destruct (splrep _ _ _); reflexivity.
Qed.


Lemma evaluate_unfold (r : pyarg F) (self : FLM F) :
  evaluate r self =
  match __beta self with
  | None => (self, Raise (ValueError fit_first_message))
  | Some coef =>
      if (__basis self =? "fourier")%string then
        match basis_functions self with
        | (self2, Ok phi) =>
            match stack_basis phi with
            | Ok X =>
                match dot_beta X coef with
                | Ok y_est => (self2, Ok (Some y_est))
                | Raise e => (self2, Raise e)
                end
            | Raise e => (self2, Raise e)
            end
        | (self2, Raise e) => (self2, Raise e)
        end
      else if (__basis self =? "spline")%string then
        match __nsamples self with
        | None =>
            (self, Raise (TypeError
               "unsupported operand type(s) for *: 'int' and 'NoneType'"))
        | Some T =>
            match times_int r T with
            | Ok num =>
                match np_linspace 0 T num with
                | Ok t =>
                    match splev_beta t coef with
                    | Ok y_est => (self, Ok (Some y_est))
                    | Raise e => (self, Raise e)
                    end
                | Raise e => (self, Raise e)
                end
            | Raise e => (self, Raise e)
            end
        end
      else (self, Ok None)
  end.
Proof.
  unfold evaluate, bind, gets, modify, lift, ret, raise, int_operand, nsamples, beta.
  cbv beta iota zeta.
  destruct (__beta self) as [coef |]; [| reflexivity].
  cbv beta iota zeta.
  destruct (__basis self =? "fourier")%string.
  - destruct (basis_functions _) as [self2 [phi | e]]; [| reflexivity].
    destruct (stack_basis phi) as [X | e]; [| reflexivity].
    destruct (dot_beta X coef); reflexivity.
  - destruct (__basis self =? "spline")%string; [| reflexivity].
    destruct (__nsamples self) as [T |]; [| reflexivity].
    unfold ret. cbv beta iota.
    destruct (times_int r T) as [num | e]; [| reflexivity].
    destruct (np_linspace 0 T num) as [t | e]; [| reflexivity].
    destruct (splev_beta t coef); reflexivity.
Qed.

Lemma axpy_length (acc col : list F) (b : F) :
  length acc = length col -> length (axpy acc col b) = length acc.
Proof.
  revert col. induction acc as [| a acc IH]; intros [| c col] Hl; cbn in *;
    try reflexivity; try discriminate.
  f_equal. apply IH. congruence.
Qed.

Lemma fold_axpy_length (m : nat) (cols : list (list F * F)) (acc : list F) :
  Forall (fun cb => length (fst cb) = m) cols -> length acc = m ->
  length (fold_left (fun acc cb => axpy acc (fst cb) (snd cb)) cols acc) = m.
Proof.
  intros Hc. revert acc. induction Hc as [| cb cols Hcb _ IH]; intros acc Hacc; cbn.
  - exact Hacc.
  - apply IH. rewrite axpy_length; congruence.
Qed.

Lemma np_dot_length (m : nat) (X : list (list F)) (b y : list F) :
  X <> [] -> Forall (fun c => length c = m) X ->
  np_dot X b = Ok y -> length y = m.
Proof.
  intros Hne HX. unfold np_dot.
  destruct (Nat.eqb _ _); [| discriminate].
  intros [= <-]. apply fold_axpy_length.
  - apply Forall_forall. intros [c x] Hin. cbn.
    apply in_combine_l in Hin. rewrite Forall_forall in HX. now apply HX.
  - rewrite repeat_length. destruct X as [| a X]; [contradiction |].
    cbn. now inversion HX.
Qed.

Lemma np_stack_axis1_ok (arrays X : list (list F)) :
  np_stack_axis1 arrays = Ok X -> X = arrays /\ X <> [].
Proof.
  unfold np_stack_axis1. destruct arrays as [| a rest]; [discriminate |].
  destruct (forallb _ rest); [| discriminate].
  intros [= <-]. split; [reflexivity | discriminate].
Qed.


Lemma basis_functions_cached (self : FLM F) (phi : list (list F)) :
  __basis_functions self = Some phi ->
  basis_functions self = (self, Ok (Some phi)).
Proof.
  intros Hc. unfold basis_functions, bind, gets. cbv beta iota.
  rewrite Hc. cbv beta iota. now rewrite Hc.
Qed.

Lemma basis_functions_returns (self self2 : FLM F) (phi : option (list (list F))) :
  basis_functions self = (self2, Ok phi) -> __basis_functions self2 = phi.
Proof.
  unfold basis_functions, bind, gets. cbv beta iota.
  destruct (__basis_functions self) eqn:Hc; cbv beta iota.
  - now intros [= <- <-].
  - destruct (__create_basis_functions _ self) as [s' [[] | e]]; [| discriminate].
    now intros [= <- <-].
Qed.

Lemma linspace_points_length (start stop num : Z) :
  length (@linspace_points F _ start stop num) = Z.to_nat num.
Proof.
  unfold linspace_points. now rewrite length_map, length_np_arange, Z.sub_0_r.
Qed.

Section WithSpec.

Context `{!SolversSpec F}.

(** C4. After a call of [fit] that returned normally on a series of [n]
    samples, [nsamples] is [n] and: for a Fourier model, [evaluate] returns,
    whatever [r], the product [np.dot] of the cached basis matrix and the
    stored parameters, which has [n] entries; for a spline model,
    [evaluate(r)] with an integer [r >= 0] hands the stored spline and the
    [r*n] points of [np.linspace(0, n, r*n, endpoint=False)] to [splev] and
    its outcome is the outcome of [splev]: for [r >= 1] and a non-empty
    series it returns the spline evaluated at these points, a sequence of
    [r*n] entries (for no point at all, [splev] raises).  In both cases the
    call leaves the object as it was. *)
Theorem evaluate_after_fit (raw : Raw F) (binarize verbose : bool)
    (self self' : FLM F) :
  fit raw binarize verbose self = (self', Ok tt) ->
  __nsamples self'
    = Some (Z.of_nat (length (average_daily_activity raw binarize (sampling_freq self))))
  /\ (__basis self = "fourier"%string ->
      exists (X : list (list F)) (params y_est : list F),
        __basis_functions self' = Some X
        /\ __beta self' = Some (Params params)
        /\ np_dot X params = Ok y_est
        /\ length y_est
           = length (average_daily_activity raw binarize (sampling_freq self))
        /\ forall r : pyarg F, evaluate r self' = (self', Ok (Some y_est)))
  /\ (__basis self = "spline"%string ->
      exists s : tck F,
        __beta self' = Some (TckList s)
        /\ forall r : Z, 0 <= r ->
             evaluate (ArgInt r) self'
               = (self',
                  result_map Some
                    (splev
                       (linspace_points 0
                          (Z.of_nat (length (average_daily_activity raw binarize
                                               (sampling_freq self))))
                          (r * Z.of_nat (length (average_daily_activity raw binarize
                                                   (sampling_freq self))))) s))
             /\ (0 < r ->
                 average_daily_activity raw binarize (sampling_freq self) <> [] ->
                 exists y_est : list F,
                   splev
                     (linspace_points 0
                        (Z.of_nat (length (average_daily_activity raw binarize
                                             (sampling_freq self))))
                        (r * Z.of_nat (length (average_daily_activity raw binarize
                                                 (sampling_freq self))))) s
                   = Ok y_est
                   /\ evaluate (ArgInt r) self' = (self', Ok (Some y_est))
                   /\ length y_est
                      = Z.to_nat (r * Z.of_nat (length (average_daily_activity
                                                          raw binarize
                                                          (sampling_freq self)))))).
Proof.
  rewrite fit_unfold. cbv zeta.
  set (d := average_daily_activity raw binarize (sampling_freq self)).
  set (self1 := set_nsamples (Some (Z.of_nat (length d))) self).
  intros Hfit. repeat split.
  - destruct (__basis self =? "fourier")%string.
    + pose proof (basis_functions_frame self1) as (_ & _ & _ & Hn & _).
      destruct (basis_functions self1) as [self2 [phi | e]]; [| discriminate].
      destruct (stack_basis phi); [| discriminate].
      destruct (OLS_params d _); [| discriminate].
      injection Hfit as <-. exact Hn.
    + destruct (__basis self =? "spline")%string.
      * destruct (np_linspace _ _ _); [| discriminate].
        destruct (splrep _ _ _); [| discriminate].
        now injection Hfit as <-.
      * now injection Hfit as <-.
  - intros Hb. rewrite Hb in Hfit. cbn [String.eqb Ascii.eqb Bool.eqb] in Hfit.
    pose proof (basis_functions_frame self1) as (Hbs & _ & _ & _ & _).
    destruct (basis_functions self1) as [self2 [phi | e]] eqn:Hphi; [| discriminate].
    apply basis_functions_returns in Hphi.
    destruct (stack_basis phi) as [X | e] eqn:HX; [| discriminate].
    destruct (OLS_params d X) as [params | e] eqn:Hols; [| discriminate].
    injection Hfit as <-.
    destruct phi as [arrays |]; [| discriminate].
    cbn [stack_basis] in HX.
    destruct (np_stack_axis1_ok _ _ HX) as [-> Hne].
    destruct (OLS_params_shape _ _ _ Hols) as [Hlen Hrows].
    set (y_est := fold_left (fun acc cb => axpy acc (fst cb) (snd cb))
                            (combine arrays params)
                            (repeat (of_int 0) (n_rows arrays))).
    assert (Hdot : np_dot arrays params = Ok y_est).
    { unfold np_dot. rewrite <- Hlen, Nat.eqb_refl. reflexivity. }
    exists arrays, params, y_est.
    split; [exact Hphi |]. split; [reflexivity |]. split; [exact Hdot |].
    split; [eapply np_dot_length; eauto |].
    intros r. rewrite evaluate_unfold.
    cbn [__beta set_beta __basis].
    cbn [fst] in Hbs. cbn [__basis self1 set_nsamples] in Hbs.
    rewrite Hbs, Hb. cbn [String.eqb Ascii.eqb Bool.eqb].
    rewrite (basis_functions_cached _ arrays) by exact Hphi.
    cbn [stack_basis dot_beta]. rewrite HX, Hdot. reflexivity.
  - intros Hb. rewrite Hb in Hfit. cbn [String.eqb Ascii.eqb Bool.eqb] in Hfit.
    destruct (np_linspace _ _ _) as [t | e]; [| discriminate].
    destruct (splrep t d _) as [s | e] eqn:Hrep; [| discriminate].
    injection Hfit as <-.
    exists s. split; [reflexivity |].
    intros r Hr.
    assert (Hev : evaluate (ArgInt r) (set_beta (Some (TckList s)) self1)
                  = (set_beta (Some (TckList s)) self1,
                     result_map Some
                       (splev (linspace_points 0 (Z.of_nat (length d))
                                 (r * Z.of_nat (length d))) s))).
    { rewrite evaluate_unfold.
      cbn [__beta set_beta __basis self1 set_nsamples __nsamples].
      rewrite Hb. cbn [String.eqb Ascii.eqb Bool.eqb times_int].
      unfold np_linspace.
      destruct (r * Z.of_nat (length d) <? 0) eqn:E; [apply Z.ltb_lt in E; nia |].
      cbn [splev_beta]. now destruct (splev _ s). }
    split; [exact Hev |].
    intros Hr1 Hd.
    assert (Hg : linspace_points (F:=F) 0 (Z.of_nat (length d))
                   (r * Z.of_nat (length d)) <> []).
    { intros Hnil. apply (f_equal (@length F)) in Hnil.
      rewrite linspace_points_length in Hnil. cbn [length] in Hnil.
      destruct d; [contradiction | cbn [length] in Hnil; nia]. }
    destruct (splev_defined _ _ _ _ _ Hrep Hg) as [v Hv].
    exists v. split; [exact Hv |]. split.
    + rewrite Hev, Hv. reflexivity.
    + now rewrite (splev_length _ _ _ Hv), linspace_points_length.
Qed.

End WithSpec.

End Methods.

(** ** What each method leaves unchanged; the lifecycle invariant *)

Section Frames.
Context {F : Type} `{Float64 F} `{Solvers F}.

Lemma fit_frame (raw : Raw F) (binarize verbose : bool) (self : FLM F) :
  __basis (fst (fit raw binarize verbose self)) = __basis self
  /\ __sampling_freq (fst (fit raw binarize verbose self)) = __sampling_freq self
  /\ __max_order (fst (fit raw binarize verbose self)) = __max_order self
  /\ __nsamples (fst (fit raw binarize verbose self))
     = Some (Z.of_nat (length (average_daily_activity raw binarize (sampling_freq self)))).
Proof.
  rewrite fit_unfold. cbv zeta.
  set (self1 := set_nsamples _ self).
  pose proof (basis_functions_frame self1) as (Hb & Hf & Hk & Hn & _).
  destruct (__basis self =? "fourier")%string.
  - destruct (basis_functions self1) as [self2 [phi | e]]; cbn [fst] in *.
    + destruct (stack_basis phi); [| now auto].
      destruct (OLS_params _ _); now auto.
    + now auto.
  - destruct (__basis self =? "spline")%string; [| now auto].
    destruct (np_linspace _ _ _); [| now auto].
    destruct (splrep _ _ _); now auto.
Qed.

Lemma fit_beta (raw : Raw F) (binarize verbose : bool) (self : FLM F) :
  match snd (fit raw binarize verbose self) with
  | Ok _ =>
      (supported self -> __beta (fst (fit raw binarize verbose self)) <> None)
      /\ (~ supported self -> __beta (fst (fit raw binarize verbose self)) = __beta self)
  | Raise _ => __beta (fst (fit raw binarize verbose self)) = __beta self
  end.
Proof.
  rewrite fit_unfold. cbv zeta. unfold supported.
  set (self1 := set_nsamples _ self).
  pose proof (basis_functions_frame self1) as (_ & _ & _ & _ & Hbeta).
  destruct (__basis self =? "fourier")%string eqn:Ef.
  - apply String.eqb_eq in Ef.
    destruct (basis_functions self1) as [self2 [phi | e]]; cbn [fst snd] in *;
      [| exact Hbeta].
    destruct (stack_basis phi); [| exact Hbeta].
    destruct (OLS_params _ _); [| exact Hbeta].
    cbn. split; [discriminate | tauto].
  - apply String.eqb_neq in Ef.
    destruct (__basis self =? "spline")%string eqn:Es.
    + apply String.eqb_eq in Es.
      destruct (np_linspace _ _ _); [| reflexivity].
      destruct (splrep _ _ _); [| reflexivity].
      cbn. split; [discriminate | tauto].
    + apply String.eqb_neq in Es. cbn. split; [tauto | reflexivity].
Qed.

Lemma evaluate_frame (r : pyarg F) (self : FLM F) :
  __basis (fst (evaluate r self)) = __basis self
  /\ __beta (fst (evaluate r self)) = __beta self.
Proof.
  rewrite evaluate_unfold.
  pose proof (basis_functions_frame self) as (Hb & _ & _ & _ & Hbeta).
  destruct (__beta self) as [coef |] eqn:E; [| cbn [fst]; now auto].
  destruct (__basis self =? "fourier")%string.
  - destruct (basis_functions self) as [self2 [phi | e]]; cbn [fst] in *;
      [| now auto].
    destruct (stack_basis phi); [| now auto].
    destruct (dot_beta _ _); now auto.
  - destruct (__basis self =? "spline")%string; [| cbn [fst]; now auto].
    destruct (__nsamples self); [| cbn [fst]; now auto].
    destruct (times_int r _); [| cbn [fst]; now auto].
    destruct (np_linspace _ _ _); [| cbn [fst]; now auto].
    destruct (splev_beta _ _); cbn [fst]; now auto.
Qed.

Lemma smooth_state (raw : Raw F) (binarize : bool) (method : method_arg F)
    (self : FLM F) :
  fst (smooth raw binarize method self) = self.
Proof.
  unfold smooth, bind, gets, ret, raise. cbv beta iota zeta.
  now destruct (bind_fwhm _ _ _ _).
Qed.

Lemma evaluate_reader_unfold (reader : RawReader F) (r : pyarg F) (self : FLM F) :
  evaluate_reader reader r self =
  match readers reader with
  | [] => (self, Ok [])
  | _ :: _ =>
      (self, Raise (TypeError
         "evaluate() takes from 1 to 2 positional arguments but 3 were given"))
  end.
Proof.
  unfold evaluate_reader. destruct (readers reader) as [| raw rest]; reflexivity.
Qed.

Lemma fit_each_beta (raws : list (Raw F)) (binarize verbose : bool) (self : FLM F) :
  supported self ->
  supported (fst (fit_each raws binarize verbose self))
  /\ (__beta (fst (fit_each raws binarize verbose self)) <> None
      <-> __beta self <> None \/ snd (fit_each raws binarize verbose self) = true).
Proof.
  revert self. induction raws as [| raw rest IH]; intros self Hs; cbn [fit_each].
  - cbn. split; [exact Hs |]. split; [now left | now intros [? | ?]].
  - pose proof (fit_frame raw binarize verbose self) as (Hb & _).
    pose proof (fit_beta raw binarize verbose self) as Hbeta.
    destruct (fit raw binarize verbose self) as [self1 [[] | e]]; cbn [fst snd] in *.
    + assert (Hs1 : supported self1) by (unfold supported in *; now rewrite Hb).
      destruct (IH self1 Hs1) as [Hs2 Hiff]. split; [exact Hs2 |].
      split; [now right |]. intros _. apply Hiff. left. now apply Hbeta.
    + split; [unfold supported in *; now rewrite Hb |].
      rewrite Hbeta. split; [now left | now intros [? | ?]].
Qed.

Lemma run_call_beta (c : call) (self : FLM F) :
  supported self ->
  supported (fst (run_call c self))
  /\ (__beta (fst (run_call c self)) <> None
      <-> __beta self <> None \/ snd (run_call c self) = true).
Proof.
  intros Hs. destruct c; cbn [run_call fst snd].
  - pose proof (fit_frame raw binarize verbose self) as (Hb & _).
    pose proof (fit_beta raw binarize verbose self) as Hbeta.
    destruct (fit raw binarize verbose self) as [self1 [[] | e]]; cbn [fst snd is_ok] in *.
    + split; [unfold supported in *; now rewrite Hb |].
      split; [now right |]. intros _. now apply Hbeta.
    + split; [unfold supported in *; now rewrite Hb |].
      rewrite Hbeta. split; [now left | now intros [? | ?]].
  - destruct (evaluate_frame r self) as [Hb Hbeta].
    split; [unfold supported in *; now rewrite Hb |].
    rewrite Hbeta. split; [now left | now intros [? | ?]].
  - rewrite smooth_state. split; [exact Hs |].
    split; [now left | now intros [? | ?]].
  - pose proof (basis_functions_frame self) as (Hb & _ & _ & _ & Hbeta).
    split; [unfold supported in *; now rewrite Hb |].
    rewrite Hbeta. split; [now left | now intros [? | ?]].
  - now apply fit_each_beta.
  - rewrite evaluate_reader_unfold.
    destruct (readers reader); cbn [fst]; (split; [exact Hs |]);
      (split; [now left | now intros [? | ?]]).
Qed.

Lemma run_beta (history : list call) (self : FLM F) (fitted : bool) :
  supported self ->
  (__beta self <> None <-> fitted = true) ->
  __beta (fst (run history self fitted)) <> None
  <-> snd (run history self fitted) = true.
Proof.
  revert self fitted. induction history as [| c rest IH]; intros self fitted Hs Hinv.
  - exact Hinv.
  - cbn [run]. destruct (run_call_beta c self Hs) as [Hs' Hiff].
    apply IH; [exact Hs' |].
    rewrite Hiff, Hinv. rewrite orb_true_iff. reflexivity.
Qed.


Lemma fit_each_only_by_fit (raws : list (Raw F)) (binarize verbose : bool)
    (self : FLM F) :
  __beta (fst (fit_each raws binarize verbose self)) <> None ->
  __beta self <> None \/ snd (fit_each raws binarize verbose self) = true.
Proof.
  destruct raws as [| raw rest]; cbn [fit_each]; [now left |].
  pose proof (fit_beta raw binarize verbose self) as Hbeta.
  destruct (fit raw binarize verbose self) as [self1 [[] | e]]; cbn [fst snd] in *.
  - now right.
  - rewrite Hbeta. now left.
Qed.

Lemma run_call_only_by_fit (c : call) (self : FLM F) :
  __beta (fst (run_call c self)) <> None ->
  __beta self <> None \/ snd (run_call c self) = true.
Proof.
  destruct c; cbn [run_call fst snd].
  - pose proof (fit_beta raw binarize verbose self) as Hbeta.
    destruct (fit raw binarize verbose self) as [self1 [[] | e]]; cbn [fst snd is_ok] in *.
    + now right.
    + rewrite Hbeta. now left.
  - destruct (evaluate_frame r self) as [_ ->]. now left.
  - rewrite smooth_state. now left.
  - pose proof (basis_functions_frame self) as (_ & _ & _ & _ & ->). now left.
  - apply fit_each_only_by_fit.
  - rewrite evaluate_reader_unfold. destruct (readers reader); now left.
Qed.

Lemma run_only_by_fit (history : list call) (self : FLM F) (fitted : bool) :
  (__beta self <> None -> fitted = true) ->
  __beta (fst (run history self fitted)) <> None ->
  snd (run history self fitted) = true.
Proof.
  revert self fitted. induction history as [| c rest IH]; intros self fitted Hinv.
  - exact Hinv.
  - cbn [run]. apply IH. intros Hb. apply orb_true_iff.
    destruct (run_call_only_by_fit c self Hb) as [Hb' | Hf]; [left; auto | now right].
Qed.

Lemma init_ok (basis freq : string) (k : option Z) (self0 : FLM F) :
  __init__ basis freq k = Ok self0 ->
  self0 = mk_FLM basis freq None k None None /\ In basis bases.
Proof.
  unfold __init__. destruct (existsb _ bases) eqn:E; [| discriminate].
  intros [= <-]. split; [reflexivity |].
  apply existsb_exists in E. destruct E as (b & Hin & Heq).
  apply String.eqb_eq in Heq. now subst.
Qed.

(** Whatever the basis, coefficients are undefined for as long as no call of
    [fit] has returned normally. *)
Lemma never_fitted_undefined (basis freq : string) (k : option Z) (self0 : FLM F)
    (history : list call) :
  __init__ basis freq k = Ok self0 ->
  snd (run history self0 false) = false ->
  beta (fst (run history self0 false)) = None.
Proof.
  intros Hinit Hrun. apply init_ok in Hinit as [-> _].
  unfold beta. destruct (__beta (fst (run history _ false))) eqn:E; [| reflexivity].
  assert (Hf : snd (run history (mk_FLM basis freq None k None None) false) = true).
  { apply run_only_by_fit; [cbn; congruence | now rewrite E]. }
  congruence.
Qed.

(** C2. On an instance whose coefficients are undefined ([beta] is [None]:
    no call of [fit] has returned normally, see [never_fitted_undefined]),
    [evaluate] raises, for every [r], the [ValueError] whose message asks to
    run [fit] first; it returns no value and leaves the instance as it
    was. *)
Theorem evaluate_before_fit (self : FLM F) (r : pyarg F) :
  beta self = None ->
  evaluate r self = (self, Raise (ValueError fit_first_message)).
Proof.
  intros Hb. rewrite evaluate_unfold. unfold beta in Hb. now rewrite Hb.
Qed.

(** C8. For a model constructed with basis ["fourier"] or ["spline"]: the
    coefficients are undefined after construction; after any sequence of
    calls, they are defined if and only if some call of [fit] (direct, or
    made by [fit_reader]) has returned normally; and a call of [fit] that
    returns normally from any state so reached leaves them defined. *)
Theorem coefficients_defined_iff_fitted (basis freq : string) (k : option Z)
    (self0 : FLM F) (history : list call) :
  __init__ basis freq k = Ok self0 ->
  basis = "fourier"%string \/ basis = "spline"%string ->
  beta self0 = None
  /\ (beta (fst (run history self0 false)) <> None
      <-> snd (run history self0 false) = true)
  /\ forall (raw : Raw F) (binarize verbose : bool),
       snd (fit raw binarize verbose (fst (run history self0 false))) = Ok tt ->
       beta (fst (fit raw binarize verbose (fst (run history self0 false)))) <> None.
Proof.
  intros Hinit Hb. apply init_ok in Hinit as [-> _].
  assert (Hs : supported (F:=F) (mk_FLM basis freq None k None None)) by exact Hb.
  split; [reflexivity |]. split.
  - apply run_beta; [exact Hs |]. cbn. split; [congruence | discriminate].
  - intros raw binarize verbose Hok.
    assert (Hs' : supported (F:=F) (fst (run history (mk_FLM basis freq None k None None) false))).
    { clear Hok. generalize false.
      generalize dependent (mk_FLM basis freq None k (@None (list (list F))) None).
      induction history as [| c rest IH]; intros s Hs b; cbn [run fst]; [exact Hs |].
      apply IH. now apply run_call_beta. }
    pose proof (fit_beta raw binarize verbose
                  (fst (run history (mk_FLM basis freq None k None None) false))) as Hbeta.
    rewrite Hok in Hbeta. unfold beta. now apply Hbeta.
Qed.

(** C10. Every call of [fit], on any instance and whether it returns or
    raises, leaves [nsamples] equal to the length of the daily-average
    series it obtained; with basis ["ssa"] or ["wavelet"] the call returns
    normally having changed nothing else, so the coefficients stay as they
    were while the previous [nsamples] is lost. *)
Theorem fit_overwrites_nsamples (raw : Raw F) (binarize verbose : bool) (self : FLM F) :
  nsamples (fst (fit raw binarize verbose self))
    = Some (Z.of_nat (length (average_daily_activity raw binarize (sampling_freq self))))
  /\ (__basis self = "ssa"%string \/ __basis self = "wavelet"%string ->
      fit raw binarize verbose self
        = (set_nsamples
             (Some (Z.of_nat (length (average_daily_activity raw binarize
                                        (sampling_freq self))))) self,
           Ok tt)
      /\ beta (fst (fit raw binarize verbose self)) = beta self).
Proof.
  split; [apply fit_frame |].
  intros Hb. rewrite fit_unfold. cbv zeta.
  destruct Hb as [-> | ->]; now cbn.
Qed.

(** C6. For a daily-average series of [n] samples with [std(ddof=1)] equal
    to [s], [smooth] calls the kernel smoother with the bandwidth
    [n^(-1/5) * sqrt(8*log 2) * s] for [method = 'scotts'],
    [(n*3/4)^(-1/5) * sqrt(8*log 2) * s] for [method = 'silverman'] (the sum
    [1 + 2.0] of the source being [3]), and the scalar itself for a numeric
    scalar, whatever the standard deviation; what [smooth] returns or raises
    is what the smoother returns or raises at that bandwidth, and the model
    is left as it was. *)
Theorem smooth_bandwidth (raw : Raw F) (binarize : bool) (self : FLM F) :
  fadd (of_int 1) (of_int 2) = of_int 3 ->
  smooth raw binarize (MStr "scotts") self
    = (self,
       spm1d_smooth (average_daily_activity raw binarize (sampling_freq self))
         (fmul (fmul (np_power
                        (of_int (Z.of_nat (length (average_daily_activity raw binarize
                                                     (sampling_freq self)))))
                        (fdiv (of_int (-1)) (of_int 5)))
                     (np_sqrt (fmul (of_int 8) (np_log (of_int 2)))))
               (std_ddof1 (average_daily_activity raw binarize (sampling_freq self)))))
  /\ smooth raw binarize (MStr "silverman") self
    = (self,
       spm1d_smooth (average_daily_activity raw binarize (sampling_freq self))
         (fmul (fmul (np_power
                        (fdiv (fmul (of_int (Z.of_nat (length (average_daily_activity
                                                                 raw binarize
                                                                 (sampling_freq self)))))
                                    (of_int 3))
                              (of_int 4))
                        (fdiv (of_int (-1)) (of_int 5)))
                     (np_sqrt (fmul (of_int 8) (np_log (of_int 2)))))
               (std_ddof1 (average_daily_activity raw binarize (sampling_freq self)))))
  /\ forall x : F,
       smooth raw binarize (MScalar x) self
         = (self, spm1d_smooth (average_daily_activity raw binarize (sampling_freq self)) x)
       /\ forall (size : Z) (sd2fwhm data_std : F),
            bind_fwhm (MScalar x) size sd2fwhm data_std = Some x.
Proof.
  intros H3. unfold smooth, bind, gets, lift. cbv beta iota zeta.
  split; [| split].
  - reflexivity.
  - cbn [bind_fwhm String.eqb Ascii.eqb Bool.eqb]. unfold _silverman_factor.
    now rewrite H3.
  - intros x. split; reflexivity.
Qed.

End Frames.

(** ** Further facts about the methods *)

Section Further.

Context {F : Type} `{Float64 F} `{Solvers F}.

(** Once built, the list of basis functions is never rebuilt by [fit]. *)
Lemma fit_keeps_cached_basis (raw : Raw F) (binarize verbose : bool)
    (self : FLM F) (phi : list (list F)) :
  __basis_functions self = Some phi ->
  __basis_functions (fst (fit raw binarize verbose self)) = Some phi.
Proof.
  intros Hc. rewrite fit_unfold. cbv zeta.
  set (self1 := set_nsamples _ self).
  assert (Hc1 : __basis_functions self1 = Some phi) by exact Hc.
  destruct (__basis self =? "fourier")%string.
  - rewrite (basis_functions_cached self1 phi Hc1).
    destruct (stack_basis (Some phi)); [| exact Hc1].
    destruct (OLS_params _ _); exact Hc1.
  - destruct (__basis self =? "spline")%string; [| exact Hc1].
    destruct (np_linspace _ _ _); [| exact Hc1].
    destruct (splrep _ _ _); exact Hc1.
Qed.

(** A [method] that no branch of [smooth] recognises leaves [fwhm] unbound. *)
Lemma smooth_unrecognised (raw : Raw F) (binarize : bool) (method : method_arg F)
    (self : FLM F) :
  method = MOther
  \/ (exists s : string,
        method = MStr s /\ s <> "scotts"%string /\ s <> "silverman"%string) ->
  smooth raw binarize method self
  = (self, Raise (UnboundLocalError
                    "local variable 'fwhm' referenced before assignment")).
Proof.
  intros [-> | (s & -> & H1 & H2)]; unfold smooth, bind, gets, ret, raise;
    cbv beta iota zeta; cbn [bind_fwhm]; [reflexivity |].
  apply String.eqb_neq in H1, H2. now rewrite H1, H2.
Qed.

(** The loop of [fit_reader] is the loop that [run] records. *)
Lemma fit_reader_fit_each (reader : RawReader F) (binarize verbose : bool)
    (self : FLM F) :
  fst (fit_reader reader binarize verbose self)
  = fst (fit_each (readers reader) binarize verbose self).
Proof.
  unfold fit_reader. generalize (readers reader). intros raws. revert self.
  induction raws as [| raw rest IH]; intros self; cbn [for_each fit_each];
    [reflexivity |].
  unfold bind at 1.
  destruct (fit raw binarize verbose self) as [self1 [[] | e]]; cbn [fst];
    [apply IH | reflexivity].
Qed.

End Further.

(** ** Concrete runs *)

Import Symbolic.


Lemma ols_shape (y : list expr) (X : list (list expr)) (b : list expr) :
  ols y X = Ok b ->
  length b = length X /\ Forall (fun c => length c = length y) X.
Proof.
  unfold ols.
  destruct (forallb _ X) eqn:E; [| discriminate].
  intros [= <-]. split.
  - now rewrite length_map, length_seq.
  - apply Forall_forall. intros c Hc.
    rewrite forallb_forall in E. now apply Nat.eqb_eq, E.
Qed.

#[export] Instance expr_SolversSpec : SolversSpec expr.
Proof.
  split.
  - exact ols_shape.
  - intros [| t0 t] s v; cbn; [discriminate |].
    intros [= <-]. cbn. now rewrite length_map.
  - intros x y k s [| t0 t] _ Ht; [contradiction |]. cbn. eauto.
  - reflexivity.
Defined.

Example new_is_init :
  __init__ "fourier" "30min" (Some 1) = Ok (new "fourier" (Some 1)).
Proof. reflexivity. Qed.

Example init_rejects_unknown_basis :
  @__init__ expr "pca" "30min" None = Raise (ValueError (basis_error_message "pca")).
Proof. reflexivity. Qed.

Example init_accepts_all_four :
  map (fun b => is_ok (@__init__ expr b "30min" None)) bases = [true; true; true; true].
Proof. reflexivity. Qed.

(** A Fourier fit on an empty series stops at the division by [T = 0]. *)
Example fit_fourier_empty_series :
  snd (fit (mk_Raw "empty" (series [])) false false (new "fourier" (Some 1)))
  = Raise (ZeroDivisionError "float division by zero").
Proof. reflexivity. Qed.

(** A Fourier fit without [max_order] stops at [max_order + 1]. *)
Example fit_fourier_without_order :
  snd (fit raw4 false false (new "fourier" None))
  = Raise (TypeError "unsupported operand type(s) for +: 'NoneType' and 'int'").
Proof. reflexivity. Qed.

(** The default degree of the spline is 3. *)
Example fit_spline_default_degree :
  option_map (fun b => match b with TckList s => tck_k s | Params _ => 0 end)
             (beta (fst (fit raw8 false false (new "spline" None))))
  = Some 3.
Proof. reflexivity. Qed.


Lemma evaluate_before_fit_witness :
  evaluate (ArgInt 10) (new "spline" None)
  = (new "spline" None, Raise (ValueError fit_first_message)).
Proof.
  apply (evaluate_before_fit (new "spline" None) (ArgInt 10)). reflexivity.
Defined.

Lemma fourier_basis_construction_witness :
  exists phi : list (list expr),
    __create_basis_functions (Some 4) (new "fourier" (Some 1))
      = (set_basis_functions (Some phi) (new "fourier" (Some 1)), Ok tt)
    /\ __create_basis_functions (Some 4) other_fourier
      = (set_basis_functions (Some phi) other_fourier, Ok tt)
    /\ (__basis_functions (new "fourier" (Some 1)) = None ->
        __nsamples (new "fourier" (Some 1)) = Some 4 ->
        basis_functions (new "fourier" (Some 1))
        = (set_basis_functions (Some phi) (new "fourier" (Some 1)), Ok (Some phi)))
    /\ length phi = Z.to_nat (2 * 1 + 1)
    /\ Forall (fun v => length v = Z.to_nat 4) phi
    /\ nth_error phi 0 = Some (repeat (np_cos (of_int 0)) (Z.to_nat 4))
    /\ forall n i : Z, 1 <= n <= 1 -> 0 <= i < 4 ->
         entry phi (Z.to_nat (2 * n - 1)) (Z.to_nat i)
           = Some (np_cos (fmul (angular_frequency 4 n) (sample_point 4 i)))
         /\ entry phi (Z.to_nat (2 * n)) (Z.to_nat i)
           = Some (np_sin (fmul (angular_frequency 4 n) (sample_point 4 i))).
Proof.
  apply (fourier_basis_construction (new "fourier" (Some 1)) other_fourier 4 1);
    try reflexivity; try lia.
  repeat constructor.
Defined.

Lemma smooth_bandwidth_witness :
  smooth raw4 false (MStr "scotts") (new "spline" None)
    = (new "spline" None,
       spm1d_smooth (series [3; 1; 4; 1] false "30min")
         (fmul (fmul (np_power (of_int 4) (fdiv (of_int (-1)) (of_int 5)))
                     (np_sqrt (fmul (of_int 8) (np_log (of_int 2)))))
               (std_ddof1 (series [3; 1; 4; 1] false "30min"))))
  /\ smooth raw4 false (MStr "silverman") (new "spline" None)
    = (new "spline" None,
       spm1d_smooth (series [3; 1; 4; 1] false "30min")
         (fmul (fmul (np_power (fdiv (fmul (of_int 4) (of_int 3)) (of_int 4))
                               (fdiv (of_int (-1)) (of_int 5)))
                     (np_sqrt (fmul (of_int 8) (np_log (of_int 2)))))
               (std_ddof1 (series [3; 1; 4; 1] false "30min"))))
  /\ smooth raw4 false (MScalar (Lit 5)) (new "spline" None)
    = (new "spline" None, spm1d_smooth (series [3; 1; 4; 1] false "30min") (Lit 5)).
Proof.
  destruct (smooth_bandwidth raw4 false (new "spline" None))
    as (Hscotts & Hsilverman & Hscalar); [reflexivity |].
  split; [exact Hscotts |]. split; [exact Hsilverman |].
  exact (proj1 (Hscalar (Lit 5))).
Defined.

(** The smoother fails on a zero bandwidth, and on the NaN bandwidth that
    the rules give for a series of one sample. *)
Example smooth_fails_in_the_smoother :
  snd (smooth raw4 false (MScalar (Lit 0)) (new "spline" None))
  = Raise (ZeroDivisionError "float division by zero")
  /\ snd (smooth (mk_Raw "rec1" (series [7])) false (MStr "scotts") (new "spline" None))
     = Raise (ValueError "cannot convert float NaN to integer")
  /\ is_ok (snd (smooth raw4 false (MStr "silverman") (new "spline" None))) = true.
Proof. repeat split. Qed.

Lemma fit_overwrites_nsamples_witness :
  nsamples (fst (fit raw6 false false (set_nsamples (Some 4) (new "wavelet" None))))
    = Some 6
  /\ fit raw6 false false (set_nsamples (Some 4) (new "wavelet" None))
    = (set_nsamples (Some 6) (new "wavelet" None), Ok tt).
Proof.
  destruct (fit_overwrites_nsamples raw6 false false
              (set_nsamples (Some 4) (new "wavelet" None))) as [Hn Hu].
  split; [exact Hn | apply Hu; right; reflexivity].
Defined.

Lemma coefficients_defined_iff_fitted_witness :
  beta (new "spline" None) = None
  /\ (beta (fst (run history8 (new "spline" None) false)) <> None
      <-> snd (run history8 (new "spline" None) false) = true)
  /\ forall (raw : Raw expr) (binarize verbose : bool),
       snd (fit raw binarize verbose (fst (run history8 (new "spline" None) false)))
         = Ok tt ->
       beta (fst (fit raw binarize verbose (fst (run history8 (new "spline" None) false))))
         <> None.
Proof.
  apply (coefficients_defined_iff_fitted "spline" "30min" None (new "spline" None) history8).
  - reflexivity.
  - right. reflexivity.
Defined.

Example history8_fits_once :
  snd (run history8 (new "spline" None) false) = true
  /\ map (fun c => snd (run_call c (new "spline" None))) history8
     = [false; false; true; false; false].
Proof. split; reflexivity. Qed.

Lemma evaluate_after_fit_witness :
  (exists (X : list (list expr)) (params y_est : list expr),
      __basis_functions fitted_fourier = Some X
      /\ __beta fitted_fourier = Some (Params params)
      /\ np_dot X params = Ok y_est
      /\ length y_est = 4%nat
      /\ forall r : pyarg expr, evaluate r fitted_fourier = (fitted_fourier, Ok (Some y_est)))
  /\ (exists s : tck expr,
        __beta fitted_spline = Some (TckList s)
        /\ forall r : Z, 0 <= r ->
             evaluate (ArgInt r) fitted_spline
               = (fitted_spline,
                  result_map Some (splev (linspace_points 0 8 (r * 8)) s))
             /\ (0 < r -> series [1; 2; 3; 4; 5; 6; 7; 8] false "30min" <> [] ->
                 exists y_est : list expr,
                   splev (linspace_points 0 8 (r * 8)) s = Ok y_est
                   /\ evaluate (ArgInt r) fitted_spline = (fitted_spline, Ok (Some y_est))
                   /\ length y_est = Z.to_nat (r * 8))).
Proof.
  split.
  - destruct (evaluate_after_fit raw4 false false (new "fourier" (Some 1)) fitted_fourier)
      as (_ & Hfourier & _); [reflexivity |].
    apply Hfourier. reflexivity.
  - destruct (evaluate_after_fit raw8 false false (new "spline" None) fitted_spline)
      as (_ & _ & Hspline); [reflexivity |].
    apply Hspline. reflexivity.
Defined.

(** The spline fitted on eight samples, evaluated with ratio 2 and with
    ratio 0. *)
Example evaluate_spline_ratios :
  option_map (@length expr)
    (match snd (evaluate (ArgInt 2) fitted_spline) with
     | Ok (Some y) => Some y
     | _ => None
     end) = Some 16%nat
  /\ snd (evaluate (ArgInt 0) fitted_spline) = Raise (ValueError "Invalid input data").
Proof. split; reflexivity. Qed.

(** C1. [evaluate_reader] does not return the mapping of the specification:
    it calls [self.evaluate(raw, r)], two positional arguments for a method
    that takes one, so on a fitted model (Fourier or spline, on which
    [evaluate] itself succeeds) and a reader that holds a record the call
    raises [TypeError] and no entry is produced. *)
Theorem evaluate_reader_raises :
  snd (fit raw4 false false (new "fourier" (Some 1))) = Ok tt
  /\ is_ok (snd (evaluate (ArgInt 10) fitted_fourier)) = true
  /\ evaluate_reader (mk_RawReader [raw4; raw6]) (ArgInt 10) fitted_fourier
     = (fitted_fourier,
        Raise (TypeError
          "evaluate() takes from 1 to 2 positional arguments but 3 were given"))
  /\ evaluate_reader (mk_RawReader [raw8]) (ArgInt 10) fitted_spline
     = (fitted_spline,
        Raise (TypeError
          "evaluate() takes from 1 to 2 positional arguments but 3 were given")).
Proof. repeat split. Qed.

(** C5. The bases ["ssa"] and ["wavelet"] are accepted by [__init__], and
    [fit] on such a model does not raise: it returns normally, having set
    [nsamples] only, with the coefficients still undefined. *)
Theorem fit_unimplemented_basis_returns :
  __init__ "ssa" "30min" None = Ok (new "ssa" None)
  /\ __init__ "wavelet" "30min" None = Ok (new "wavelet" None)
  /\ fit raw4 false false (new "ssa" None)
     = (set_nsamples (Some 4) (new "ssa" None), Ok tt)
  /\ fit raw4 false false (new "wavelet" None)
     = (set_nsamples (Some 4) (new "wavelet" None), Ok tt)
  /\ beta (fst (fit raw4 false false (new "ssa" None))) = None
  /\ beta (fst (fit raw4 false false (new "wavelet" None))) = None.
Proof. repeat split. Qed.

(** C7. With a method that is neither ['scotts'], nor ['silverman'], nor
    a numeric scalar, [smooth] returns no sequence, but the exception is the
    [UnboundLocalError] of the unbound local [fwhm], not an error about the
    method. *)
Theorem smooth_bogus_method :
  smooth raw4 false (MStr "bogus") (new "fourier" (Some 1))
  = (new "fourier" (Some 1),
     Raise (UnboundLocalError "local variable 'fwhm' referenced before assignment"))
  /\ smooth raw4 false MOther (new "fourier" (Some 1))
  = (new "fourier" (Some 1),
     Raise (UnboundLocalError "local variable 'fwhm' referenced before assignment")).
Proof. split; reflexivity. Qed.

(** C9. A Fourier model fitted on four samples and then fitted on six
    keeps the basis functions built for four: [nsamples] becomes 6, the
    cached vectors still have length 4, the second fit fails in the OLS
    solver on the shapes, and a later [evaluate] returns four values. *)
Theorem refit_keeps_stale_basis :
  snd (fit raw4 false false (new "fourier" (Some 1))) = Ok tt
  /\ option_map (map (@length expr)) (__basis_functions fitted_fourier)
     = Some [4; 4; 4]%nat
  /\ nsamples (fst (fit raw6 false false fitted_fourier)) = Some 6
  /\ __basis_functions (fst (fit raw6 false false fitted_fourier))
     = __basis_functions fitted_fourier
  /\ snd (fit raw6 false false fitted_fourier)
     = Raise (ValueError "endog and exog matrices are different sizes")
  /\ option_map (option_map (@length expr))
       (match snd (evaluate (ArgInt 10) (fst (fit raw6 false false fitted_fourier))) with
        | Ok y => Some y
        | Raise _ => None
        end)
     = Some (Some 4%nat).
Proof. repeat split. Qed.

(** * Further properties of the methods *)

(** ** Outcomes of the basis construction *)

Section Construction.

Context {F : Type} `{Float64 F} `{Solvers F}.

Lemma create_not_fourier (T : option Z) (self : FLM F) :
  __basis self <> "fourier"%string ->
  __create_basis_functions T self = (set_basis_functions (Some []) self, Ok tt).
Proof.
  intros Hb. apply String.eqb_neq in Hb.
  unfold __create_basis_functions. run_method. now rewrite Hb.
Qed.

Lemma create_raise_unchanged (T : option Z) (self : FLM F) :
  is_ok (snd (__create_basis_functions T self)) = false ->
  fst (__create_basis_functions T self) = self.
Proof.
  unfold __create_basis_functions, py_truediv, np_linspace, max_order.
  run_method.
  repeat break_match; cbn; try discriminate; reflexivity.
Qed.

(** On a Fourier model, [__create_basis_functions(T)] returns normally
    exactly when [T] is an integer [T >= 1] and [max_order] is an integer;
    when it raises ([T] is [None], zero or negative, or [max_order] is
    [None]) the object is left as it was, the cache included. *)
Theorem create_basis_functions_outcome (self : FLM F) (T : option Z) :
  __basis self = "fourier"%string ->
  (is_ok (snd (__create_basis_functions T self)) = true
   <-> exists T' k : Z, T = Some T' /\ 0 < T' /\ __max_order self = Some k)
  /\ (is_ok (snd (__create_basis_functions T self)) = false ->
      fst (__create_basis_functions T self) = self).
Proof.
  intros Hb. split; [| apply create_raise_unchanged].
  split.
  - unfold __create_basis_functions, py_truediv, np_linspace, max_order.
    run_method. rewrite Hb. cbn.
    destruct T as [T' |]; cbn; [| discriminate].
    destruct (T' =? 0) eqn:E0; cbn; [discriminate |].
    destruct (T' <? 0) eqn:E1; cbn; [discriminate |].
    destruct (__max_order self) as [k |]; cbn; [| discriminate].
    intros _. exists T', k. apply Z.eqb_neq in E0. apply Z.ltb_ge in E1.
    repeat split; lia.
  - intros (T' & k & -> & HT & Hk).
    now rewrite (create_fourier self T' k Hb Hk HT).
Qed.

(** A zero or negative [max_order] is not refused: for [T >= 1] the basis
    is then the single vector [cos(0*t)] over the [T] sampling points. *)
Theorem nonpositive_order_basis (self : FLM F) (T k : Z) :
  __basis self = "fourier"%string -> __max_order self = Some k ->
  k <= 0 -> 0 < T ->
  __create_basis_functions (Some T) self
  = (set_basis_functions
       (Some [map (fun ti => np_cos (fmul (of_int 0) ti))
                  (linspace_points 0 T T)]) self,
     Ok tt).
Proof.
  intros Hb Hk Hk0 HT. rewrite (create_fourier self T k Hb Hk HT).
  unfold fourier_phi, np_arange at 3.
  replace (Z.to_nat (k + 1 - 1)) with 0%nat by lia. cbn [seq map flat_map].
  unfold linspace_points, sample_point. now rewrite Z.sub_0_r.
Qed.

End Construction.

(** ** Fits *)

Section Fits.

Context {F : Type} `{Float64 F} `{Solvers F}.

Lemma basis_functions_fresh (self : FLM F) (T k : Z) :
  __basis self = "fourier"%string -> __max_order self = Some k ->
  __basis_functions self = None -> __nsamples self = Some T -> 0 < T ->
  basis_functions self
  = (set_basis_functions (Some (fourier_phi T k)) self, Ok (Some (fourier_phi T k))).
Proof.
  intros Hb Hk Hc Hn HT. unfold basis_functions, nsamples, bind, gets.
  cbv beta iota. rewrite Hc. cbv beta iota. rewrite Hn.
  now rewrite (create_fourier self T k Hb Hk HT).
Qed.

Lemma fit_from_empty_cache (raw : Raw F) (binarize verbose : bool)
    (self : FLM F) (k : Z) :
  __basis self = "fourier"%string -> __max_order self = Some k ->
  __basis_functions self = None ->
  average_daily_activity raw binarize (sampling_freq self) <> [] ->
  __basis_functions (fst (fit raw binarize verbose self))
    = Some (fourier_phi
              (Z.of_nat (length (average_daily_activity raw binarize (sampling_freq self))))
              k)
  /\ Forall (fun v => length v
                      = length (average_daily_activity raw binarize (sampling_freq self)))
       (fourier_phi
          (Z.of_nat (length (average_daily_activity raw binarize (sampling_freq self))))
          k).
Proof.
  intros Hb Hk Hc Hd. split.
  - rewrite fit_unfold. cbv zeta. rewrite Hb. cbn [String.eqb Ascii.eqb Bool.eqb].
    set (d := average_daily_activity raw binarize (sampling_freq self)) in *.
    rewrite (basis_functions_fresh (set_nsamples (Some (Z.of_nat (length d))) self)
               (Z.of_nat (length d)) k); try assumption; try reflexivity.
    + destruct (stack_basis _); [| reflexivity].
      destruct (OLS_params d _); reflexivity.
    + destruct d; [contradiction | cbn; lia].
  - pose proof (fourier_phi_rows (F:=F)
                  (Z.of_nat (length (average_daily_activity raw binarize
                                       (sampling_freq self)))) k) as Hr.
    now rewrite Nat2Z.id in Hr.
Qed.

(** On a Fourier model with an integer [max_order] whose basis functions
    have not been built, [fit] on a non-empty series builds them for the
    length of that series, whether the OLS step then succeeds or not: the
    cached vectors have the length that [nsamples] records. *)
Theorem first_fit_builds_basis (raw : Raw F) (binarize verbose : bool)
    (self : FLM F) (k : Z) :
  __basis self = "fourier"%string -> __max_order self = Some k ->
  __basis_functions self = None ->
  average_daily_activity raw binarize (sampling_freq self) <> [] ->
  __basis_functions (fst (fit raw binarize verbose self))
    = Some (fourier_phi
              (Z.of_nat (length (average_daily_activity raw binarize (sampling_freq self))))
              k)
  /\ Forall (fun v => length v
                      = length (average_daily_activity raw binarize (sampling_freq self)))
       (fourier_phi
          (Z.of_nat (length (average_daily_activity raw binarize (sampling_freq self))))
          k).
Proof.
  exact (fit_from_empty_cache raw binarize verbose self k).
Qed.

(** Assigning [None] to the property [basis_functions] and then calling
    [fit] rebuilds the basis for the new series: on a Fourier model with an
    integer [max_order], whatever was cached before, the cache afterwards is
    the basis for the length of the fitted series, which is [nsamples]. *)
Theorem reset_then_fit_rebuilds (raw : Raw F) (binarize verbose : bool)
    (self : FLM F) (k : Z) :
  __basis self = "fourier"%string -> __max_order self = Some k ->
  average_daily_activity raw binarize (sampling_freq self) <> [] ->
  __basis_functions
    (fst ((basis_functions_setter None ;;; fit raw binarize verbose) self))
  = Some (fourier_phi
            (Z.of_nat (length (average_daily_activity raw binarize (sampling_freq self))))
            k)
  /\ __nsamples (fst ((basis_functions_setter None ;;; fit raw binarize verbose) self))
     = Some (Z.of_nat (length (average_daily_activity raw binarize (sampling_freq self)))).
Proof.
  intros Hb Hk Hd.
  unfold bind, basis_functions_setter, modify. cbv beta iota.
  split.
  - now apply (fit_from_empty_cache raw binarize verbose
                 (set_basis_functions None self) k).
  - apply (fit_frame raw binarize verbose (set_basis_functions None self)).
Qed.

(** How a Fourier [fit] fails when the basis has to be built: on an empty
    series with [ZeroDivisionError] (the division by [T = 0]), and on a
    non-empty series without [max_order] with [TypeError]; in both cases
    having changed [nsamples] only. *)
Theorem fourier_fit_failures (raw : Raw F) (binarize verbose : bool) (self : FLM F) :
  __basis self = "fourier"%string -> __basis_functions self = None ->
  (average_daily_activity raw binarize (sampling_freq self) = [] ->
   fit raw binarize verbose self
   = (set_nsamples (Some 0) self, Raise (ZeroDivisionError "float division by zero")))
  /\ (average_daily_activity raw binarize (sampling_freq self) <> [] ->
      __max_order self = None ->
      fit raw binarize verbose self
      = (set_nsamples
           (Some (Z.of_nat (length (average_daily_activity raw binarize
                                      (sampling_freq self))))) self,
         Raise (TypeError "unsupported operand type(s) for +: 'NoneType' and 'int'"))).
Proof.
  intros Hb Hc. split.
  - intros Hd. rewrite fit_unfold. cbv zeta. rewrite Hb, Hd.
    cbn [String.eqb Ascii.eqb Bool.eqb length Z.of_nat].
    unfold basis_functions, __create_basis_functions, nsamples, py_truediv.
    run_method. rewrite Hc. cbn. rewrite Hb. reflexivity.
  - intros Hd Hk. rewrite fit_unfold. cbv zeta. rewrite Hb.
    cbn [String.eqb Ascii.eqb Bool.eqb].
    set (d := average_daily_activity raw binarize (sampling_freq self)) in *.
    assert (Hn : 0 < Z.of_nat (length d)) by (destruct d; [contradiction | cbn; lia]).
    unfold basis_functions, __create_basis_functions, nsamples, py_truediv,
      np_linspace, max_order.
    run_method. rewrite Hc. cbn. rewrite Hb. cbn.
    destruct (Z.of_nat (length d) =? 0) eqn:E0; [apply Z.eqb_eq in E0; lia |].
    destruct (Z.of_nat (length d) <? 0) eqn:E1; [apply Z.ltb_lt in E1; lia |].
    cbn. rewrite Hk. reflexivity.
Qed.

End Fits.

(** ** Refits and readers *)

Section Refits.

Context {F : Type} `{Float64 F} `{Solvers F}.

(** Off the Fourier basis, [fit] reads the configuration only. *)
Lemma fit_not_fourier (raw : Raw F) (binarize verbose : bool) (self : FLM F) :
  __basis self <> "fourier"%string ->
  fit raw binarize verbose self =
  let daily_avg := average_daily_activity raw binarize (sampling_freq self) in
  let n := Z.of_nat (length daily_avg) in
  if (__basis self =? "spline")%string then
    match np_linspace 0 n n with
    | Ok t =>
        match splrep t daily_avg
                (match __max_order self with None => 3 | Some k => k end) with
        | Ok s => (set_beta (Some (TckList s)) (set_nsamples (Some n) self), Ok tt)
        | Raise e => (set_nsamples (Some n) self, Raise e)
        end
    | Raise e => (set_nsamples (Some n) self, Raise e)
    end
  else (set_nsamples (Some n) self, Ok tt).
Proof.
  intros Hb. apply String.eqb_neq in Hb. rewrite fit_unfold. cbv zeta.
  now rewrite Hb.
Qed.

Lemma refit_outcome (raw1 raw2 : Raw F) (b1 v1 b2 v2 : bool) (self : FLM F) :
  __basis self <> "fourier"%string ->
  snd (fit raw2 b2 v2 (fst (fit raw1 b1 v1 self))) = snd (fit raw2 b2 v2 self)
  /\ (snd (fit raw2 b2 v2 self) = Ok tt ->
      fst (fit raw2 b2 v2 (fst (fit raw1 b1 v1 self))) = fst (fit raw2 b2 v2 self)).
Proof.
  intros Hb.
  pose proof (fit_frame raw1 b1 v1 self) as (Hb1 & Hf1 & Hk1 & _).
  assert (Hb' : __basis (fst (fit raw1 b1 v1 self)) <> "fourier"%string)
    by now rewrite Hb1.
  rewrite (fit_not_fourier raw2 b2 v2 _ Hb'), (fit_not_fourier raw2 b2 v2 self Hb).
  cbv zeta. unfold sampling_freq. rewrite Hb1, Hf1, Hk1.
  set (d := average_daily_activity raw2 b2 (__sampling_freq self)).
  assert (Hc : __basis_functions (fst (fit raw1 b1 v1 self)) = __basis_functions self).
  { rewrite (fit_not_fourier raw1 b1 v1 self Hb). cbv zeta.
    destruct (__basis self =? "spline")%string; [| reflexivity].
    destruct (np_linspace _ _ _); [| reflexivity].
    destruct (splrep _ _ _); reflexivity. }
  assert (Hs : forall x,
             set_beta x (set_nsamples (Some (Z.of_nat (length d)))
                                      (fst (fit raw1 b1 v1 self)))
             = set_beta x (set_nsamples (Some (Z.of_nat (length d))) self)).
  { intros x. unfold set_beta, set_nsamples.
    cbn [__basis __sampling_freq __nsamples __max_order __basis_functions __beta].
    now rewrite Hb1, Hf1, Hk1, Hc. }
  assert (Hn : __beta (fst (fit raw1 b1 v1 self)) = __beta self ->
               set_nsamples (Some (Z.of_nat (length d))) (fst (fit raw1 b1 v1 self))
               = set_nsamples (Some (Z.of_nat (length d))) self).
  { intros Hbeta. unfold set_nsamples. now rewrite Hb1, Hf1, Hk1, Hc, Hbeta. }
  destruct (__basis self =? "spline")%string eqn:Es.
  - destruct (np_linspace _ _ _); [| split; [reflexivity | discriminate]].
    destruct (splrep _ _ _); [| split; [reflexivity | discriminate]].
    split; [reflexivity |]. intros _. cbn [fst]. apply Hs.
  - split; [reflexivity |]. intros _. cbn [fst]. apply Hn.
    rewrite (fit_not_fourier raw1 b1 v1 self Hb). cbv zeta. now rewrite Es.
Qed.

(** Off the Fourier basis, a fit that returns normally erases every trace
    of an earlier call of [fit], successful or not: the object and the
    outcome are those of the later fit alone. *)
Theorem refit_forgets_previous_fit (raw1 raw2 : Raw F) (b1 v1 b2 v2 : bool)
    (self : FLM F) :
  __basis self <> "fourier"%string ->
  snd (fit raw2 b2 v2 self) = Ok tt ->
  fit raw2 b2 v2 (fst (fit raw1 b1 v1 self)) = fit raw2 b2 v2 self.
Proof.
  intros Hb Hok. destruct (refit_outcome raw1 raw2 b1 v1 b2 v2 self Hb) as [Hs Hf].
  specialize (Hf Hok).
  destruct (fit raw2 b2 v2 (fst (fit raw1 b1 v1 self))), (fit raw2 b2 v2 self).
  cbn in *. congruence.
Qed.

Lemma for_each_app {A : Type} (xs ys : list A) (body : A -> M F unit) (self : FLM F) :
  for_each (xs ++ ys) body self
  = match for_each xs body self with
    | (self', Ok _) => for_each ys body self'
    | (self', Raise e) => (self', Raise e)
    end.
Proof.
  revert self. induction xs as [| x xs IH]; intros self; cbn [app for_each].
  - reflexivity.
  - unfold bind. destruct (body x self) as [s1 [[] | e]]; [apply IH | reflexivity].
Qed.

(** [fit_reader] (sequential branch) stops at the first record whose
    [fit] raises: it raises that exception, the object is the one that
    failed fit left, and the records after it are not fitted. *)
Theorem fit_reader_stops_at_first_failure (pre post : list (Raw F)) (bad : Raw F)
    (binarize verbose : bool) (self : FLM F) (e : exn) :
  snd (fit_reader (mk_RawReader pre) binarize verbose self) = Ok tt ->
  snd (fit bad binarize verbose
         (fst (fit_reader (mk_RawReader pre) binarize verbose self))) = Raise e ->
  fit_reader (mk_RawReader (pre ++ bad :: post)) binarize verbose self
  = (fst (fit bad binarize verbose
            (fst (fit_reader (mk_RawReader pre) binarize verbose self))),
     Raise e).
Proof.
  unfold fit_reader. cbn [readers]. intros Hpre Hbad.
  rewrite for_each_app.
  destruct (for_each pre _ self) as [s1 [[] | e1]]; cbn [fst snd] in *; [| discriminate].
  cbn [for_each]. unfold bind at 1.
  destruct (fit bad binarize verbose s1) as [s2 [[] | e2]]; cbn [fst snd] in *;
    [discriminate | congruence].
Qed.

(** Off the Fourier basis, a call of [fit_reader] (sequential branch) that
    returns normally leaves exactly what fitting the last record alone
    leaves: only the last fit survives on the shared model. *)
Theorem fit_reader_keeps_last_fit (raws : list (Raw F)) (last : Raw F)
    (binarize verbose : bool) (self : FLM F) :
  __basis self <> "fourier"%string ->
  snd (fit_reader (mk_RawReader (raws ++ [last])) binarize verbose self) = Ok tt ->
  fit_reader (mk_RawReader (raws ++ [last])) binarize verbose self
  = fit last binarize verbose self.
Proof.
  unfold fit_reader. cbn [readers]. revert self.
  induction raws as [| raw rest IH]; intros self Hb Hok.
  - cbn [app for_each] in *. unfold bind in *.
    destruct (fit last binarize verbose self) as [s1 [[] | e]]; reflexivity.
  - cbn [app for_each] in *. unfold bind at 1 in Hok. unfold bind at 1.
    pose proof (fit_frame raw binarize verbose self) as (Hb1 & _).
    pose proof (refit_outcome raw last binarize verbose binarize verbose self Hb)
      as [Hsnd Hfst].
    destruct (fit raw binarize verbose self) as [s1 [[] | e]]; cbn [fst snd] in *;
      [| discriminate].
    assert (Hb' : __basis s1 <> "fourier"%string) by now rewrite Hb1.
    rewrite (IH s1 Hb' Hok). rewrite (IH s1 Hb' Hok) in Hok.
    rewrite Hok in Hsnd. specialize (Hfst (eq_sym Hsnd)).
    destruct (fit last binarize verbose s1), (fit last binarize verbose self).
    cbn in *. congruence.
Qed.

End Refits.

(** ** Evaluation and smoothing *)

Section Evaluation.

Context {F : Type} `{Float64 F} `{Solvers F}.

Lemma create_sets_cache (T : option Z) (self self' : FLM F) :
  __create_basis_functions T self = (self', Ok tt) ->
  exists phi, self' = set_basis_functions (Some phi) self.
Proof.
  unfold __create_basis_functions, py_truediv, np_linspace, max_order.
  run_method.
  repeat break_match; cbn; try discriminate; intros [= <-]; eauto.
Qed.

Lemma basis_functions_uncached (self : FLM F) :
  __basis_functions self = None ->
  basis_functions self
  = match __create_basis_functions (nsamples self) self with
    | (self', Ok _) => (self', Ok (__basis_functions self'))
    | (self', Raise e) => (self', Raise e)
    end.
Proof.
  intros Hc. unfold basis_functions, bind, gets. cbv beta iota.
  rewrite Hc. cbv beta iota.
  now destruct (__create_basis_functions (nsamples self) self) as [s' [[] | e]].
Qed.

Lemma basis_functions_again (self : FLM F) :
  basis_functions (fst (basis_functions self)) = basis_functions self.
Proof.
  destruct (__basis_functions self) as [phi |] eqn:Hc.
  - rewrite (basis_functions_cached self phi Hc). cbn [fst].
    now apply basis_functions_cached.
  - rewrite (basis_functions_uncached self Hc).
    pose proof (create_raise_unchanged (nsamples self) self) as Hr.
    destruct (__create_basis_functions (nsamples self) self) as [s' [[] | e]] eqn:E.
    + apply create_sets_cache in E as [phi ->]. cbn [fst].
      apply basis_functions_cached. reflexivity.
    + cbn [fst snd is_ok] in *. rewrite (Hr eq_refl).
      rewrite (basis_functions_uncached self Hc), E. now rewrite (Hr eq_refl).
Qed.

(** [evaluate] can be repeated: a second call with the same argument, on
    the object the first call left, returns the same value or raises the
    same exception and leaves the object as the first call left it (the
    first call may have built the basis functions). *)
Theorem evaluate_repeatable (r : pyarg F) (self : FLM F) :
  evaluate r (fst (evaluate r self)) = evaluate r self.
Proof.
  rewrite (evaluate_unfold r self).
  destruct (__beta self) as [coef |] eqn:Hbeta.
  - destruct (__basis self =? "fourier")%string eqn:Ef.
    + pose proof (basis_functions_again self) as Ha.
      pose proof (basis_functions_frame self) as (Hb & _ & _ & _ & Hbe).
      destruct (basis_functions self) as [s2 [phi | e]] eqn:E; cbn [fst] in *.
      * assert (Hev : evaluate r s2
                      = match stack_basis phi with
                        | Ok X => match dot_beta X coef with
                                  | Ok y_est => (s2, Ok (Some y_est))
                                  | Raise e => (s2, Raise e)
                                  end
                        | Raise e => (s2, Raise e)
                        end).
        { rewrite evaluate_unfold, Hbe, Hbeta, Hb, Ef, Ha. reflexivity. }
        destruct (stack_basis phi) as [X | e]; [| exact Hev].
        destruct (dot_beta X coef); exact Hev.
      * cbn [fst]. rewrite evaluate_unfold, Hbe, Hbeta, Hb, Ef, Ha. reflexivity.
    + destruct (__basis self =? "spline")%string eqn:Es;
        [| cbn [fst]; now rewrite evaluate_unfold, Hbeta, Ef, Es].
      destruct (__nsamples self) as [T |] eqn:En;
        [| cbn [fst]; now rewrite evaluate_unfold, Hbeta, Ef, Es, En].
      destruct (times_int r T) as [num | e] eqn:Et;
        [| cbn [fst]; now rewrite evaluate_unfold, Hbeta, Ef, Es, En, Et].
      destruct (np_linspace 0 T num) as [t | e] eqn:El;
        [| cbn [fst]; now rewrite evaluate_unfold, Hbeta, Ef, Es, En, Et, El].
      destruct (splev_beta t coef) eqn:Ev; cbn [fst];
        now rewrite evaluate_unfold, Hbeta, Ef, Es, En, Et, El, Ev.
  - cbn [fst]. now rewrite evaluate_unfold, Hbeta.
Qed.

(** [smooth] never changes the model, and its outcome depends on the model
    through [sampling_freq] only: fitted or not, with any basis, two models
    with the same frequency give the same result. *)
Theorem smooth_reads_frequency_only (raw : Raw F) (binarize : bool)
    (method : method_arg F) (self other : FLM F) :
  sampling_freq self = sampling_freq other ->
  fst (smooth raw binarize method self) = self
  /\ snd (smooth raw binarize method self) = snd (smooth raw binarize method other).
Proof.
  intros Hf. split; [apply smooth_state |].
  unfold smooth, bind, gets, ret, raise. cbv beta iota zeta. rewrite Hf.
  now destruct (bind_fwhm _ _ _ _).
Qed.

(** [smooth] reaches the kernel smoother exactly when [method] is
    ['scotts'], ['silverman'] or a numeric scalar: then its outcome is the
    outcome of the smoother on the daily average at some bandwidth, and it
    never returns a sequence otherwise, raising [UnboundLocalError] before
    the smoother is called. *)
Theorem smooth_returns_only_if_recognised (raw : Raw F) (binarize : bool)
    (method : method_arg F) (self : FLM F) :
  (is_ok (snd (smooth raw binarize method self)) = true ->
   method = MStr "scotts" \/ method = MStr "silverman"
   \/ exists x : F, method = MScalar x)
  /\ (method = MStr "scotts" \/ method = MStr "silverman"
      \/ (exists x : F, method = MScalar x) ->
      exists fwhm : F,
        smooth raw binarize method self
        = (self,
           spm1d_smooth (average_daily_activity raw binarize (sampling_freq self)) fwhm))
  /\ (~ (method = MStr "scotts" \/ method = MStr "silverman"
         \/ exists x : F, method = MScalar x) ->
      smooth raw binarize method self
      = (self, Raise (UnboundLocalError
                        "local variable 'fwhm' referenced before assignment"))).
Proof.
  assert (Hrec : method = MStr "scotts" \/ method = MStr "silverman"
                 \/ (exists x : F, method = MScalar x) ->
                 exists fwhm : F,
                   smooth raw binarize method self
                   = (self,
                      spm1d_smooth
                        (average_daily_activity raw binarize (sampling_freq self)) fwhm)).
  { intros [-> | [-> | [x ->]]]; unfold smooth, bind, gets, lift;
      cbv beta iota zeta; cbn [bind_fwhm String.eqb Ascii.eqb Bool.eqb]; eauto. }
  assert (Hun : ~ (method = MStr "scotts" \/ method = MStr "silverman"
                   \/ exists x : F, method = MScalar x) ->
                smooth raw binarize method self
                = (self, Raise (UnboundLocalError
                                  "local variable 'fwhm' referenced before assignment"))).
  { intros Hn. apply smooth_unrecognised.
    destruct method as [s | x |]; [right | exfalso | now left].
    - exists s. split; [reflexivity |].
      split; intros ->; apply Hn; auto.
    - apply Hn. eauto. }
  split; [| split; assumption].
  intros Hok.
  destruct method as [s | x |].
  - destruct (string_dec s "scotts") as [-> | H1]; [now left |].
    destruct (string_dec s "silverman") as [-> | H2]; [now right; left |].
    rewrite Hun in Hok; [discriminate |].
    intros [[=] | [[=] | [x [=]]]]; contradiction.
  - right. right. eauto.
  - rewrite Hun in Hok; [discriminate |].
    intros [[=] | [[=] | [x [=]]]].
Qed.

End Evaluation.

(** ** Invariants of the lifecycle *)

Section Invariants.

Context {F : Type} `{Float64 F} `{Solvers F}.

Lemma evaluate_keeps_cache (r : pyarg F) (self : FLM F) (phi : list (list F)) :
  __basis_functions self = Some phi -> fst (evaluate r self) = self.
Proof.
  intros Hc. rewrite evaluate_unfold.
  destruct (__beta self) as [coef |]; [| reflexivity].
  destruct (__basis self =? "fourier")%string.
  - rewrite (basis_functions_cached self phi Hc).
    destruct (stack_basis _); [| reflexivity].
    destruct (dot_beta _ _); reflexivity.
  - destruct (__basis self =? "spline")%string; [| reflexivity].
    destruct (__nsamples self); [| reflexivity].
    destruct (times_int r _); [| reflexivity].
    destruct (np_linspace _ _ _); [| reflexivity].
    destruct (splev_beta _ _); reflexivity.
Qed.

Lemma fit_each_keeps_cache (raws : list (Raw F)) (binarize verbose : bool)
    (self : FLM F) (phi : list (list F)) :
  __basis_functions self = Some phi ->
  __basis_functions (fst (fit_each raws binarize verbose self)) = Some phi.
Proof.
  revert self. induction raws as [| raw rest IH]; intros self Hc; cbn [fit_each];
    [exact Hc |].
  pose proof (fit_keeps_cached_basis raw binarize verbose self phi Hc) as Hc1.
  destruct (fit raw binarize verbose self) as [s1 [[] | e]]; cbn [fst] in *;
    [now apply IH | exact Hc1].
Qed.

Lemma run_call_keeps_cache (c : call) (self : FLM F) (phi : list (list F)) :
  __basis_functions self = Some phi ->
  __basis_functions (fst (run_call c self)) = Some phi.
Proof.
  intros Hc. destruct c; cbn [run_call fst].
  - now apply fit_keeps_cached_basis.
  - now rewrite (evaluate_keeps_cache r self phi Hc).
  - now rewrite smooth_state.
  - now rewrite (basis_functions_cached self phi Hc).
  - now apply fit_each_keeps_cache.
  - rewrite evaluate_reader_unfold. now destruct (readers reader).
Qed.

(** Once the basis functions are cached, no sequence of calls of [fit],
    [evaluate], [smooth], [fit_reader], [evaluate_reader] or accesses to the
    property replaces or drops them. *)
Theorem cached_basis_is_never_replaced (history : list call) (self : FLM F)
    (fitted : bool) (phi : list (list F)) :
  __basis_functions self = Some phi ->
  __basis_functions (fst (run history self fitted)) = Some phi.
Proof.
  revert self fitted. induction history as [| c rest IH]; intros self fitted Hc;
    cbn [run]; [exact Hc |].
  apply IH. now apply run_call_keeps_cache.
Qed.

Lemma fit_each_config (raws : list (Raw F)) (binarize verbose : bool) (self : FLM F) :
  __basis (fst (fit_each raws binarize verbose self)) = __basis self
  /\ __sampling_freq (fst (fit_each raws binarize verbose self)) = __sampling_freq self
  /\ __max_order (fst (fit_each raws binarize verbose self)) = __max_order self.
Proof.
  revert self. induction raws as [| raw rest IH]; intros self; cbn [fit_each];
    [now auto |].
  pose proof (fit_frame raw binarize verbose self) as (Hb & Hf & Hk & _).
  destruct (fit raw binarize verbose self) as [s1 [[] | e]]; cbn [fst] in *;
    [| now auto].
  destruct (IH s1) as (Hb' & Hf' & Hk'). repeat split; congruence.
Qed.

Lemma evaluate_config (r : pyarg F) (self : FLM F) :
  __basis (fst (evaluate r self)) = __basis self
  /\ __sampling_freq (fst (evaluate r self)) = __sampling_freq self
  /\ __max_order (fst (evaluate r self)) = __max_order self.
Proof.
  rewrite evaluate_unfold.
  pose proof (basis_functions_frame self) as (Hb & Hf & Hk & _).
  destruct (__beta self) as [coef |]; [| now auto].
  destruct (__basis self =? "fourier")%string.
  - destruct (basis_functions self) as [s2 [phi | e]]; cbn [fst] in *; [| now auto].
    destruct (stack_basis phi); [| now auto].
    destruct (dot_beta _ _); now auto.
  - destruct (__basis self =? "spline")%string; [| now auto].
    destruct (__nsamples self); [| now auto].
    destruct (times_int r _); [| now auto].
    destruct (np_linspace _ _ _); [| now auto].
    destruct (splev_beta _ _); now auto.
Qed.

Lemma run_call_config (c : call) (self : FLM F) :
  __basis (fst (run_call c self)) = __basis self
  /\ __sampling_freq (fst (run_call c self)) = __sampling_freq self
  /\ __max_order (fst (run_call c self)) = __max_order self.
Proof.
  destruct c; cbn [run_call fst].
  - pose proof (fit_frame raw binarize verbose self) as (Hb & Hf & Hk & _). now auto.
  - apply evaluate_config.
  - rewrite smooth_state. now auto.
  - pose proof (basis_functions_frame self) as (Hb & Hf & Hk & _). now auto.
  - apply fit_each_config.
  - rewrite evaluate_reader_unfold. destruct (readers reader); now auto.
Qed.

(** No sequence of calls changes the basis kind, the sampling frequency or
    [max_order] of a model. *)
Theorem configuration_is_never_changed (history : list call) (self : FLM F)
    (fitted : bool) :
  __basis (fst (run history self fitted)) = __basis self
  /\ __sampling_freq (fst (run history self fitted)) = __sampling_freq self
  /\ __max_order (fst (run history self fitted)) = __max_order self.
Proof.
  revert self fitted. induction history as [| c rest IH]; intros self fitted;
    cbn [run]; [now auto |].
  destruct (IH (fst (run_call c self)) (fitted || snd (run_call c self))%bool)
    as (Hb & Hf & Hk).
  destruct (run_call_config c self) as (Hb' & Hf' & Hk').
  repeat split; congruence.
Qed.

End Invariants.

(** ** Evaluation over the lifecycle *)

Section Serving.

Context {F : Type} `{Float64 F} `{Solvers F}.

Lemma fit_consistent_transfer (self self' : FLM F) :
  __basis self' = __basis self -> __beta self' = __beta self ->
  (forall X, __basis_functions self = Some X -> __basis_functions self' = Some X) ->
  (forall n, __nsamples self = Some n -> 0 <= n ->
             exists n', __nsamples self' = Some n' /\ 0 <= n') ->
  fit_consistent self -> fit_consistent self'.
Proof.
  intros Hb Hbeta Hc Hn Hs c Hc'. rewrite Hbeta in Hc'. rewrite Hb.
  destruct (Hs c Hc') as [Hf Hsp]. split.
  - intros Hfo. destruct (Hf Hfo) as (X & p & -> & HX & Hst & Hl).
    exists X, p. repeat split; auto.
  - intros Hspl. destruct (Hsp Hspl) as (s & n & -> & Hns & Hn0 & Hrep).
    destruct (Hn n Hns Hn0) as (n' & Hn' & Hn'0). exists s, n'. auto.
Qed.

Lemma evaluate_consistent_state (r : pyarg F) (self : FLM F) :
  fit_consistent self -> fst (evaluate r self) = self.
Proof.
  intros Hs. rewrite evaluate_unfold.
  destruct (__beta self) as [coef |] eqn:Hbeta; [| reflexivity].
  destruct (__basis self =? "fourier")%string eqn:Ef.
  - apply String.eqb_eq in Ef.
    destruct (Hs coef Hbeta) as [Hf _].
    destruct (Hf Ef) as (X & p & _ & HX & _).
    rewrite (basis_functions_cached self X HX).
    destruct (stack_basis _); [| reflexivity].
    destruct (dot_beta _ _); reflexivity.
  - destruct (__basis self =? "spline")%string; [| reflexivity].
    destruct (__nsamples self); [| reflexivity].
    destruct (times_int r _); [| reflexivity].
    destruct (np_linspace _ _ _); [| reflexivity].
    destruct (splev_beta _ _); reflexivity.
Qed.

Lemma basis_functions_consistent (self : FLM F) :
  fit_consistent self -> fit_consistent (fst (basis_functions self)).
Proof.
  pose proof (basis_functions_frame self) as (Hb & _ & _ & Hn & Hbeta).
  apply fit_consistent_transfer; auto.
  - intros X HX. now rewrite (basis_functions_cached self X HX).
  - intros n Hns Hn0. exists n. now rewrite Hn.
Qed.

Section WithSpec.

Context `{!SolversSpec F}.

Lemma fit_consistent_fit (raw : Raw F) (binarize verbose : bool) (self : FLM F) :
  fit_consistent self -> fit_consistent (fst (fit raw binarize verbose self)).
Proof.
  intros Hs.
  assert (Hkeep : __beta (fst (fit raw binarize verbose self)) = __beta self ->
                  fit_consistent (fst (fit raw binarize verbose self))).
  { intros Hbeta.
    pose proof (fit_frame raw binarize verbose self) as (Hb & _ & _ & Hn).
    apply (fit_consistent_transfer self); auto.
    - intros X HX. now apply fit_keeps_cached_basis.
    - intros n _ _. eexists. split; [exact Hn | lia]. }
  pose proof (fit_beta raw binarize verbose self) as Hbeta.
  destruct (snd (fit raw binarize verbose self)) as [[] | e] eqn:Hout;
    [| now apply Hkeep].
  pose proof (fit_frame raw binarize verbose self) as (Hb & _ & _ & Hn).
  revert Hout Hkeep Hbeta Hb Hn. rewrite fit_unfold. cbv zeta.
  set (d := average_daily_activity raw binarize (sampling_freq self)).
  set (self1 := set_nsamples (Some (Z.of_nat (length d))) self).
  destruct (__basis self =? "fourier")%string eqn:Ef.
  - destruct (basis_functions self1) as [self2 [phi | e]] eqn:Hphi; [| discriminate].
    apply basis_functions_returns in Hphi.
    destruct (stack_basis phi) as [X | e] eqn:HX; [| discriminate].
    destruct (OLS_params d X) as [params | e] eqn:Hols; [| discriminate].
    intros _ _ _ Hb _. cbn [fst] in *.
    destruct phi as [arrays |]; [| discriminate]. cbn [stack_basis] in HX.
    destruct (np_stack_axis1_ok _ _ HX) as [-> _].
    destruct (OLS_params_shape _ _ _ Hols) as [Hlen _].
    intros c Hc. cbn [__beta set_beta] in Hc. injection Hc as <-. split.
    + intros _. exists arrays, params. repeat split; assumption.
    + intros Hsp. cbn [__basis set_beta] in Hsp, Hb. apply String.eqb_eq in Ef.
      rewrite Hb, Ef in Hsp. discriminate.
  - destruct (__basis self =? "spline")%string eqn:Es.
    + destruct (np_linspace _ _ _) as [t | e]; [| discriminate].
      destruct (splrep t d _) as [s | e] eqn:Hrep; [| discriminate].
      intros _ _ _ _ _. cbn [fst].
      intros c Hc. cbn [__beta set_beta] in Hc. injection Hc as <-. split.
      * intros Hfo. cbn in Hfo. apply String.eqb_neq in Ef. contradiction.
      * intros _. exists s, (Z.of_nat (length d)).
        split; [reflexivity |]. split; [reflexivity |]. split; [lia |]. eauto.
    + intros _ Hkeep _ _ _. now apply Hkeep.
Qed.

Lemma fit_each_consistent (raws : list (Raw F)) (binarize verbose : bool)
    (self : FLM F) :
  fit_consistent self -> fit_consistent (fst (fit_each raws binarize verbose self)).
Proof.
  revert self. induction raws as [| raw rest IH]; intros self Hs; cbn [fit_each];
    [exact Hs |].
  pose proof (fit_consistent_fit raw binarize verbose self Hs) as Hs1.
  destruct (fit raw binarize verbose self) as [s1 [[] | e]]; cbn [fst] in *;
    [now apply IH | exact Hs1].
Qed.

Lemma run_consistent (history : list call) (self : FLM F) (fitted : bool) :
  fit_consistent self -> fit_consistent (fst (run history self fitted)).
Proof.
  revert self fitted. induction history as [| c rest IH]; intros self fitted Hs;
    cbn [run]; [exact Hs |].
  apply IH. destruct c; cbn [run_call fst].
  - now apply fit_consistent_fit.
  - now rewrite evaluate_consistent_state.
  - now rewrite smooth_state.
  - now apply basis_functions_consistent.
  - now apply fit_each_consistent.
  - rewrite evaluate_reader_unfold. now destruct (readers reader).
Qed.

Lemma consistent_evaluates (self : FLM F) (r : Z) :
  fit_consistent self -> __beta self <> None ->
  __basis self = "fourier"%string
  \/ (__basis self = "spline"%string /\ 0 < r /\ __nsamples self <> Some 0) ->
  exists y_est : list F,
    evaluate (ArgInt r) self = (self, Ok (Some y_est)).
Proof.
  intros Hs Hbeta Hsup. rewrite evaluate_unfold.
  destruct (__beta self) as [c |] eqn:Hc; [| contradiction].
  destruct (Hs c Hc) as [Hf Hsp].
  destruct Hsup as [Hb | (Hb & Hr & Hn0)].
  - destruct (Hf Hb) as (X & p & -> & HX & Hst & Hl).
    rewrite Hb. cbn [String.eqb Ascii.eqb Bool.eqb].
    rewrite (basis_functions_cached self X HX). cbn [stack_basis dot_beta].
    rewrite Hst. unfold np_dot. rewrite Hl, Nat.eqb_refl. eauto.
  - destruct (Hsp Hb) as (s & n & -> & Hn & Hn1 & (x & y & k & Hrep)).
    rewrite Hb. cbn [String.eqb Ascii.eqb Bool.eqb]. rewrite Hn.
    cbn [times_int]. unfold np_linspace.
    destruct (r * n <? 0) eqn:E; [apply Z.ltb_lt in E; nia |].
    cbn [splev_beta].
    assert (Hpos : 0 < n).
    { destruct (Z.eq_dec n 0) as [-> | Hne]; [now contradiction Hn0 | lia]. }
    assert (Hg : linspace_points (F:=F) 0 n (r * n) <> []).
    { intros Hnil. apply (f_equal (@length F)) in Hnil.
      rewrite linspace_points_length in Hnil. cbn [length] in Hnil. nia. }
    destruct (splev_defined _ _ _ _ _ Hrep Hg) as [v ->]. eauto.
Qed.

Lemma run_supported (history : list call) (self : FLM F) (fitted : bool) :
  supported self -> supported (fst (run history self fitted)).
Proof.
  revert self fitted. induction history as [| c rest IH]; intros self fitted Hs;
    cbn [run]; [exact Hs |].
  apply IH. now apply run_call_beta.
Qed.

Lemma run_basis (history : list call) (self : FLM F) (fitted : bool) :
  __basis (fst (run history self fitted)) = __basis self.
Proof.
  revert self fitted. induction history as [| c rest IH]; intros self fitted;
    cbn [run]; [reflexivity |].
  rewrite IH. apply run_call_config.
Qed.

(** Once some call of [fit] has returned normally, whatever calls (failed
    fits included) came before or after it: on a model constructed with
    basis ['fourier'], [evaluate(r)] returns a sequence for every integer
    [r]; on a model constructed with basis ['spline'] it does for every
    integer [r >= 1], provided [nsamples] is not zero (the series of the
    latest call of [fit] was not empty).  The object is left unchanged. *)
Theorem fitted_model_evaluates (basis freq : string) (k : option Z) (self0 : FLM F)
    (history : list call) (r : Z) :
  __init__ basis freq k = Ok self0 ->
  snd (run history self0 false) = true ->
  basis = "fourier"%string
  \/ (basis = "spline"%string /\ 0 < r
      /\ __nsamples (fst (run history self0 false)) <> Some 0) ->
  exists y_est : list F,
    evaluate (ArgInt r) (fst (run history self0 false))
    = (fst (run history self0 false), Ok (Some y_est)).
Proof.
  intros Hinit Hfit Hb. apply init_ok in Hinit as [-> _].
  set (s0 := mk_FLM basis freq None k (@None (list (list F))) None) in *.
  assert (Hs0 : supported s0) by (destruct Hb as [Hb | [Hb _]]; [now left | now right]).
  apply consistent_evaluates.
  - apply run_consistent. intros c Hc. discriminate.
  - apply run_beta; [exact Hs0 | | exact Hfit].
    cbn. split; [congruence | discriminate].
  - rewrite run_basis. exact Hb.
Qed.

End WithSpec.

(** On a Fourier model whose basis functions are cached, a call of [fit]
    that raises does not disturb [evaluate]: it returns, or raises, what it
    did before the failed call. *)
Theorem failed_fourier_fit_keeps_evaluation (raw : Raw F) (binarize verbose : bool)
    (self : FLM F) (phi : list (list F)) (e : exn) (r : pyarg F) :
  __basis self = "fourier"%string -> __basis_functions self = Some phi ->
  snd (fit raw binarize verbose self) = Raise e ->
  snd (evaluate r (fst (fit raw binarize verbose self))) = snd (evaluate r self).
Proof.
  intros Hb Hc Hfail.
  pose proof (fit_frame raw binarize verbose self) as (Hb' & _).
  pose proof (fit_beta raw binarize verbose self) as Hbeta. rewrite Hfail in Hbeta.
  pose proof (fit_keeps_cached_basis raw binarize verbose self phi Hc) as Hc'.
  rewrite !evaluate_unfold. rewrite Hbeta, Hb', Hb.
  destruct (__beta self) as [coef |]; [| reflexivity].
  cbn [String.eqb Ascii.eqb Bool.eqb].
  rewrite (basis_functions_cached _ phi Hc'), (basis_functions_cached _ phi Hc).
  destruct (stack_basis _); [| reflexivity].
  destruct (dot_beta _ _); reflexivity.
Qed.

(** On a fitted spline model, a call of [fit] that raises keeps the spline
    but has overwritten [nsamples]: [evaluate(r)], [r >= 0], then hands to
    [splev] the old spline and [r*n] points over [0, n) for the length [n]
    of the series of the failed fit, and returns or raises what [splev]
    does. *)
Theorem failed_spline_fit_moves_grid (raw : Raw F) (binarize verbose : bool)
    (self : FLM F) (s : tck F) (e : exn) (r : Z) :
  __basis self = "spline"%string -> __beta self = Some (TckList s) ->
  snd (fit raw binarize verbose self) = Raise e -> 0 <= r ->
  evaluate (ArgInt r) (fst (fit raw binarize verbose self))
  = (fst (fit raw binarize verbose self),
     result_map Some
       (splev
          (linspace_points 0
             (Z.of_nat (length (average_daily_activity raw binarize
                                  (sampling_freq self))))
             (r * Z.of_nat (length (average_daily_activity raw binarize
                                      (sampling_freq self)))))
          s)).
Proof.
  intros Hb Hc Hfail Hr.
  pose proof (fit_frame raw binarize verbose self) as (Hb' & _ & _ & Hn).
  pose proof (fit_beta raw binarize verbose self) as Hbeta. rewrite Hfail in Hbeta.
  rewrite evaluate_unfold. rewrite Hbeta, Hc, Hb', Hb, Hn.
  cbn [String.eqb Ascii.eqb Bool.eqb times_int]. unfold np_linspace.
  destruct (_ <? 0) eqn:E; [apply Z.ltb_lt in E; nia |].
  cbn [splev_beta]. now destruct (splev _ s).
Qed.

Section Bounds.

Context `{!SolversSpec F}.

(** On a fitted spline model with at least one sample, [evaluate(r)]
    raises [ValueError] for a negative integer [r] (the number of points is
    negative) and for [r = 0] ([splev] refuses an empty array of points),
    and raises [TypeError] when [r] is not a number; the object is left
    unchanged. *)
Theorem spline_evaluate_ratio_bounds (self : FLM F) (s : tck F) (n : Z) :
  __basis self = "spline"%string -> __beta self = Some (TckList s) ->
  __nsamples self = Some n -> 0 < n ->
  (forall r : Z, r < 0 ->
     exists msg, evaluate (ArgInt r) self = (self, Raise (ValueError msg)))
  /\ evaluate (ArgInt 0) self = (self, Raise (ValueError "Invalid input data"))
  /\ (forall raw : Raw F,
        exists msg, evaluate (ArgRaw raw) self = (self, Raise (TypeError msg))).
Proof.
  intros Hb Hc Hn Hn0. repeat split.
  - intros r Hr. rewrite evaluate_unfold, Hc, Hb, Hn.
    cbn [String.eqb Ascii.eqb Bool.eqb times_int]. unfold np_linspace.
    destruct (r * n <? 0) eqn:E; [eauto | apply Z.ltb_ge in E; nia].
  - rewrite evaluate_unfold, Hc, Hb, Hn.
    cbn [String.eqb Ascii.eqb Bool.eqb times_int]. unfold np_linspace.
    cbn [Z.mul Z.ltb Z.compare]. unfold linspace_points, np_arange.
    cbn [Z.sub Z.opp Z.add Z.to_nat seq map splev_beta].
    now rewrite splev_empty.
  - intros raw. rewrite evaluate_unfold, Hc, Hb, Hn. cbn. eauto.
Qed.

End Bounds.

End Serving.

(** ** Further concrete runs *)

Import Samples.

Lemma create_basis_functions_outcome_witness :
  (is_ok (snd (__create_basis_functions (Some 4) (new "fourier" (Some 1)))) = true
   <-> exists T' k : Z,
         Some 4 = Some T' /\ 0 < T' /\ __max_order (new "fourier" (Some 1)) = Some k)
  /\ (is_ok (snd (__create_basis_functions (Some 4) (new "fourier" (Some 1)))) = false ->
      fst (__create_basis_functions (Some 4) (new "fourier" (Some 1)))
      = new "fourier" (Some 1)).
Proof.
  apply (create_basis_functions_outcome (new "fourier" (Some 1)) (Some 4)).
  reflexivity.
Defined.

Lemma nonpositive_order_basis_witness :
  __create_basis_functions (Some 4) (new "fourier" (Some (-2)))
  = (set_basis_functions
       (Some [map (fun ti => np_cos (fmul (of_int 0) ti)) (linspace_points 0 4 4)])
       (new "fourier" (Some (-2))),
     Ok tt).
Proof.
  apply (nonpositive_order_basis (new "fourier" (Some (-2))) 4 (-2));
    [reflexivity | reflexivity | lia | lia].
Defined.

Lemma first_fit_builds_basis_witness :
  __basis_functions (fst (fit raw4 false false (new "fourier" (Some 1))))
    = Some (fourier_phi 4 1)
  /\ Forall (fun v => length v = 4%nat) (fourier_phi (F:=expr) 4 1).
Proof.
  apply (first_fit_builds_basis raw4 false false (new "fourier" (Some 1)) 1);
    [reflexivity | reflexivity | reflexivity | discriminate].
Defined.

Lemma reset_then_fit_rebuilds_witness :
  __basis_functions
    (fst ((basis_functions_setter None ;;; fit raw6 false false) fitted_fourier))
  = Some (fourier_phi 6 1)
  /\ __nsamples (fst ((basis_functions_setter None ;;; fit raw6 false false) fitted_fourier))
     = Some 6.
Proof.
  apply (reset_then_fit_rebuilds raw6 false false fitted_fourier 1);
    [reflexivity | reflexivity | discriminate].
Defined.

Lemma fourier_fit_failures_witness :
  fit raw0 false false (new "fourier" (Some 1))
  = (set_nsamples (Some 0) (new "fourier" (Some 1)),
     Raise (ZeroDivisionError "float division by zero"))
  /\ fit raw4 false false (new "fourier" None)
  = (set_nsamples (Some 4) (new "fourier" None),
     Raise (TypeError "unsupported operand type(s) for +: 'NoneType' and 'int'")).
Proof.
  split.
  - apply (fourier_fit_failures raw0 false false (new "fourier" (Some 1)));
      reflexivity.
  - apply (fourier_fit_failures raw4 false false (new "fourier" None));
      [reflexivity | reflexivity | discriminate | reflexivity].
Defined.

Lemma refit_forgets_previous_fit_witness :
  fit raw4 false false (fst (fit raw8 false false (new "spline" None)))
  = fit raw4 false false (new "spline" None).
Proof.
  apply (refit_forgets_previous_fit raw8 raw4 false false false false
           (new "spline" None)); [discriminate | reflexivity].
Defined.

Lemma fit_reader_stops_at_first_failure_witness :
  fit_reader (mk_RawReader ([raw8] ++ raw2 :: [raw4])) false false (new "spline" None)
  = (fst (fit raw2 false false
            (fst (fit_reader (mk_RawReader [raw8]) false false (new "spline" None)))),
     Raise (TypeError "m > k must hold")).
Proof.
  apply (fit_reader_stops_at_first_failure [raw8] [raw4] raw2 false false
           (new "spline" None)); reflexivity.
Defined.

Lemma fit_reader_keeps_last_fit_witness :
  fit_reader (mk_RawReader ([raw8; raw4] ++ [raw6])) false false (new "spline" None)
  = fit raw6 false false (new "spline" None).
Proof.
  apply (fit_reader_keeps_last_fit [raw8; raw4] raw6 false false (new "spline" None));
    [discriminate | reflexivity].
Defined.

Lemma smooth_reads_frequency_only_witness :
  fst (smooth raw4 false (MStr "scotts") (new "spline" None)) = new "spline" None
  /\ snd (smooth raw4 false (MStr "scotts") (new "spline" None))
     = snd (smooth raw4 false (MStr "scotts") fitted_fourier).
Proof.
  apply (smooth_reads_frequency_only raw4 false (MStr "scotts")
           (new "spline" None) fitted_fourier).
  reflexivity.
Defined.

Lemma cached_basis_is_never_replaced_witness :
  __basis_functions (fst (run history_stale fitted_fourier true))
  = Some (fourier_phi 4 1).
Proof.
  apply (cached_basis_is_never_replaced history_stale fitted_fourier true
           (fourier_phi 4 1)).
  reflexivity.
Defined.

Lemma fitted_model_evaluates_witness :
  (exists y_est : list expr,
     evaluate (ArgInt 2) (fst (run history8 (new "spline" None) false))
     = (fst (run history8 (new "spline" None) false), Ok (Some y_est)))
  /\ (exists y_est : list expr,
        evaluate (ArgInt 2) (fst (run history_fourier (new "fourier" (Some 1)) false))
        = (fst (run history_fourier (new "fourier" (Some 1)) false), Ok (Some y_est))).
Proof.
  split.
  - apply (fitted_model_evaluates "spline" "30min" None (new "spline" None) history8 2);
      [reflexivity | reflexivity |].
    right. split; [reflexivity |]. split; [lia | discriminate].
  - apply (fitted_model_evaluates "fourier" "30min" (Some 1) (new "fourier" (Some 1))
             history_fourier 2);
      [reflexivity | reflexivity | left; reflexivity].
Defined.

(** On the fitted spline model, a failed fit on an empty series leaves
    [nsamples] at zero, and [evaluate] then raises in [splev]. *)
Example evaluate_after_empty_refit :
  snd (fit raw0 false false fitted_spline) = Raise (TypeError "m > k must hold")
  /\ __nsamples (fst (fit raw0 false false fitted_spline)) = Some 0
  /\ snd (evaluate (ArgInt 3) (fst (fit raw0 false false fitted_spline)))
     = Raise (ValueError "Invalid input data").
Proof. repeat split. Qed.

Lemma failed_fourier_fit_keeps_evaluation_witness :
  snd (evaluate (ArgInt 10) (fst (fit raw6 false false fitted_fourier)))
  = snd (evaluate (ArgInt 10) fitted_fourier).
Proof.
  apply (failed_fourier_fit_keeps_evaluation raw6 false false fitted_fourier
           (fourier_phi 4 1)
           (ValueError "endog and exog matrices are different sizes") (ArgInt 10));
    reflexivity.
Defined.

Lemma failed_spline_fit_moves_grid_witness :
  evaluate (ArgInt 3) (fst (fit raw2 false false fitted_spline))
  = (fst (fit raw2 false false fitted_spline),
     result_map Some (splev (linspace_points 0 2 (3 * 2)) spline8)).
Proof.
  apply (failed_spline_fit_moves_grid raw2 false false fitted_spline spline8
           (TypeError "m > k must hold") 3); [reflexivity | reflexivity | reflexivity | lia].
Defined.

Lemma spline_evaluate_ratio_bounds_witness :
  (forall r : Z, r < 0 ->
     exists msg, evaluate (ArgInt r) fitted_spline = (fitted_spline, Raise (ValueError msg)))
  /\ evaluate (ArgInt 0) fitted_spline
     = (fitted_spline, Raise (ValueError "Invalid input data"))
  /\ (forall raw : Raw expr,
        exists msg, evaluate (ArgRaw raw) fitted_spline
                    = (fitted_spline, Raise (TypeError msg))).
Proof.
  apply (spline_evaluate_ratio_bounds fitted_spline spline8 8);
    [reflexivity | reflexivity | reflexivity | lia].
Defined.

Example history_fourier_outcomes :
  snd (fit raw6 false false fitted_fourier)
  = Raise (ValueError "endog and exog matrices are different sizes")
  /\ snd (run history_fourier (new "fourier" (Some 1)) false) = true
  /\ __nsamples (fst (run history_fourier (new "fourier" (Some 1)) false)) = Some 6.
Proof. repeat split. Qed.
